(** * Solar energy dashboard (solar.py): a shallow embedding and its properties

    The program is a flat pandas/Streamlit script.  It is embedded as follows.

    - A [DataFrame] is an ordered list of column labels, a list of index
      labels and one record (a dictionary from column label to cell) per row.
    - Python variables such as [df] and [df_filtered] hold references to
      frame objects; the frames live in a heap, so that in-place column
      assignment ([df_filtered['Efficiency'] = ...]) and the copies made by
      boolean indexing ([df[mask]]) are told apart.
    - pandas calls may raise; the script runs in a state-and-error monad.
    - float64 arithmetic is an interface ([Float64]); its IEEE-754 instance
      is built on the Standard Library's [SpecFloat] with 53 bits of
      precision, and an exact instance over the rationals is given as well.
    - The text layer of CSV files (quoting, number syntax) belongs to the
      parsing library and is not modelled: a [Csv] is the table of fields the
      parser produces or the writer consumes.  Timestamps are the exception:
      the script parses them itself with [pd.to_datetime], so they are text
      in a [Csv] and go through a [DatetimeCodec]. *)

From Stdlib Require Import ZArith List Sorted Ascii String QArith Lia Lqa.
From Stdlib Require Import Floats.SpecFloat.
From stdpp Require Import gmap strings list fin_maps.

Local Open Scope Z_scope.
Local Open Scope string_scope.
Local Open Scope list_scope.
Local Open Scope nat_scope.

(** ** Times of day and timestamps *)

(** [datetime.time]: compared field by field, in the order hour, minute,
    second, microsecond. *)
Record Time := mkTime {
  hour : nat;
  minute : nat;
  second : nat;
  microsecond : nat
}.

Record Timestamp := mkTimestamp {
  year : nat;
  month : nat;
  day : nat;
  time : Time
}.

#[global] Instance Time_eq_dec : EqDecision Time.
Proof. solve_decision. Defined.

#[global] Instance Timestamp_eq_dec : EqDecision Timestamp.
Proof. solve_decision. Defined.

Definition lex (c1 c2 : comparison) : comparison :=
  match c1 with
  | Eq => c2
  | _ => c1
  end.

Definition time_cmp (a b : Time) : comparison :=
  lex (Nat.compare (hour a) (hour b))
   (lex (Nat.compare (minute a) (minute b))
     (lex (Nat.compare (second a) (second b))
          (Nat.compare (microsecond a) (microsecond b)))).

(** [a >= b] and [a <= b] on [datetime.time]. *)
Definition time_ge (a b : Time) : bool :=
  match time_cmp a b with
  | Lt => false
  | _ => true
  end.

Definition time_le (a b : Time) : bool :=
  match time_cmp a b with
  | Gt => false
  | _ => true
  end.

Definition time_gt (a b : Time) : bool :=
  match time_cmp a b with
  | Gt => true
  | _ => false
  end.

(** ** float64 arithmetic *)

Class Float64 (F : Type) := {
  fzero : F;
  fnan : F;
  fadd : F -> F -> F;
  fmul : F -> F -> F;
  fdiv : F -> F -> F;
  fleb : F -> F -> bool;
  is_nan : F -> bool;
  is_inf : F -> bool;
  of_int : Z -> F;
  (** the value of the literal [1.6] *)
  lit_1_6 : F
}.

Definition fle {F} {float64 : Float64 F} (a b : F) : Prop :=
  fleb a b = true.

(** IEEE-754 binary64, round to nearest even. *)
Module Binary64.

Definition prec : Z := 53.
Definition emax : Z := 1024.

Definition of_Z (n : Z) : spec_float :=
  match n with
  | Z0 => S754_zero false
  | _ => binary_normalize prec emax n 0 false
  end.

Definition isnan (x : spec_float) : bool :=
  match x with
  | S754_nan => true
  | _ => false
  end.

Definition isinf (x : spec_float) : bool :=
  match x with
  | S754_infinity _ => true
  | _ => false
  end.

Definition iszero (x : spec_float) : bool :=
  match x with
  | S754_zero _ => true
  | _ => false
  end.

(** 1.6 is not representable; the literal denotes
    0x1.999999999999ap+0 = 7205759403792794 * 2^-52. *)
Definition one_point_six : spec_float :=
  S754_finite false 7205759403792794 (-52).

#[global] Instance binary64 : Float64 spec_float := {|
  fzero := S754_zero false;
  fnan := S754_nan;
  fadd := SFadd prec emax;
  fmul := SFmul prec emax;
  fdiv := SFdiv prec emax;
  fleb := SFleb;
  is_nan := isnan;
  is_inf := isinf;
  of_int := of_Z;
  lit_1_6 := one_point_six
|}.

End Binary64.

(** Exact arithmetic over the rationals; [None] plays the part of NaN and
    is what a division by zero gives. *)
Module Exact.

Definition lift2 (f : Q -> Q -> Q) (a b : option Q) : option Q :=
  match a, b with
  | Some x, Some y => Some (f x y)
  | _, _ => None
  end.

Definition div (a b : option Q) : option Q :=
  match a, b with
  | Some x, Some y => if Qeq_bool y 0 then None else Some (Qdiv x y)
  | _, _ => None
  end.

Definition leb (a b : option Q) : bool :=
  match a, b with
  | Some x, Some y => Qle_bool x y
  | _, _ => false
  end.

Definition isnan (a : option Q) : bool :=
  match a with
  | None => true
  | Some _ => false
  end.

#[global] Instance exact : Float64 (option Q) := {|
  fzero := Some 0%Q;
  fnan := None;
  fadd := lift2 Qplus;
  fmul := lift2 Qmult;
  fdiv := div;
  fleb := leb;
  is_nan := isnan;
  is_inf := fun _ => false;
  of_int := fun n => Some (inject_Z n);
  lit_1_6 := Some (16 # 10)%Q
|}.

End Exact.

(** ** Results of calls that may raise *)

Inductive exn :=
| KeyError (key : string)
| TypeError
| ValueError
| AttributeError
| ParserError
(** an input this model does not cover (see the places that raise it) *)
| Unmodelled.

Inductive result (A : Type) :=
| Ok (a : A)
| Raise (e : exn).
Arguments Ok {A} a.
Arguments Raise {A} e.

Definition rbind {A B} (r : result A) (k : A -> result B) : result B :=
  match r with
  | Ok a => k a
  | Raise e => Raise e
  end.

Fixpoint traverse {A B} (f : A -> result B) (xs : list A) : result (list B) :=
  match xs with
  | [] => Ok []
  | x :: xs' =>
      rbind (f x) (fun y => rbind (traverse f xs') (fun ys => Ok (y :: ys)))
  end.

Definition value_or {A} (d : A) (r : result A) : A :=
  match r with
  | Ok a => a
  | Raise _ => d
  end.

(** ** Parsing and printing timestamps

    [pd.to_datetime] on text and the way [to_csv] prints a timestamp.
    [strptime] gives [None] on text that is no date-time. *)
Class DatetimeCodec := {
  strptime : string -> option Timestamp;
  strftime : Timestamp -> string
}.

Section Pandas.
Context {F : Type} {float64 : Float64 F} {codec : DatetimeCodec}.

(** ** Cells, frames and CSV tables *)

Inductive Cell :=
| CFloat (x : F)
| CInt (n : Z)
| CStr (s : string)
| CDatetime (t : Timestamp).

(** A missing value is the float NaN, as in pandas. *)
Definition NaN : Cell := CFloat fnan.

Record DataFrame := mkDataFrame {
  columns : list string;
  index : list nat;
  records : list (gmap string Cell)
}.

(** One field of a CSV table, as the parser types it: text files hold no
    date-times. *)
Inductive Field :=
| FFloat (x : F)
| FInt (n : Z)
| FStr (s : string).

Record Csv := mkCsv {
  header : list string;
  lines : list (list Field)
}.

Definition cell_of_field (f : Field) : Cell :=
  match f with
  | FFloat x => CFloat x
  | FInt n => CInt n
  | FStr s => CStr s
  end.

Definition field_of_cell (c : Cell) : Field :=
  match c with
  | CFloat x => FFloat x
  | CInt n => FInt n
  | CStr s => FStr s
  | CDatetime t => FStr (strftime t)
  end.

(** ** Series and frame operations *)

Definition cell (r : gmap string Cell) (key : string) : Cell :=
  default NaN (r !! key).

(** [df[key]] *)
Definition getitem (df : DataFrame) (key : string) : result (list Cell) :=
  if bool_decide (key ∈ columns df)
  then Ok (map (fun r => cell r key) (records df))
  else Raise (KeyError key).

(** [df[key] = values]: replaces the column, or appends it as the last one. *)
Definition setitem (df : DataFrame) (key : string) (values : list Cell)
  : result DataFrame :=
  if Nat.eqb (length values) (length (records df))
  then Ok {| columns := if bool_decide (key ∈ columns df)
                        then columns df else columns df ++ [key];
             index := index df;
             records := zip_with (fun r v => <[key := v]> r) (records df) values |}
  else Raise ValueError.

Fixpoint select {A} (mask : list bool) (xs : list A) : list A :=
  match mask, xs with
  | b :: mask', x :: xs' =>
      if b then x :: select mask' xs' else select mask' xs'
  | _, _ => []
  end.

(** [df[mask]] for a boolean mask: a new frame with the rows at which the
    mask holds, under their index labels. *)
Definition getitem_mask (df : DataFrame) (mask : list bool) : result DataFrame :=
  if Nat.eqb (length mask) (length (records df))
  then Ok {| columns := columns df;
             index := select mask (index df);
             records := select mask (records df) |}
  else Raise ValueError.

(** [df.empty] *)
Definition empty (df : DataFrame) : bool :=
  match columns df, records df with
  | [], _ | _, [] => true
  | _, _ => false
  end.

(** [pd.to_datetime(s)] on a column of text.  A missing value would become
    NaT, which this model leaves out. *)
Definition parse_datetime (c : Cell) : result Cell :=
  match c with
  | CStr text =>
      match strptime text with
      | Some t => Ok (CDatetime t)
      | None => Raise ValueError
      end
  | CDatetime t => Ok (CDatetime t)
  | _ => Raise Unmodelled
  end.

Definition to_datetime (s : list Cell) : result (list Cell) :=
  traverse parse_datetime s.

(** The [.dt] accessor: only on date-time values. *)
Definition dt (c : Cell) : result Timestamp :=
  match c with
  | CDatetime t => Ok t
  | _ => Raise AttributeError
  end.

Definition dt_time (s : list Cell) : result (list Time) :=
  traverse (fun c => rbind (dt c) (fun t => Ok (time t))) s.

Definition hour_of (c : Cell) : result Cell :=
  rbind (dt c) (fun t => Ok (CInt (Z.of_nat (hour (time t))))).

Definition month_of (c : Cell) : result Cell :=
  rbind (dt c) (fun t => Ok (CInt (Z.of_nat (month t)))).

Definition dt_hour (s : list Cell) : result (list Cell) :=
  traverse hour_of s.

Definition dt_month (s : list Cell) : result (list Cell) :=
  traverse month_of s.

(** [s >= t], [s <= t] and [m1 & m2] *)
Definition ge_time (s : list Time) (t : Time) : list bool :=
  map (fun x => time_ge x t) s.

Definition le_time (s : list Time) (t : Time) : list bool :=
  map (fun x => time_le x t) s.

Definition mask_and (m1 m2 : list bool) : list bool :=
  zip_with andb m1 m2.

(** [s != text] on an object column: a cell that is no string differs. *)
Definition ne_str (s : list Cell) (text : string) : list bool :=
  map (fun c =>
    match c with
    | CStr x => negb (String.eqb x text)
    | _ => true
    end) s.

(** Numeric columns: integers are converted where floats are needed. *)
Definition as_float (c : Cell) : result F :=
  match c with
  | CFloat x => Ok x
  | CInt n => Ok (of_int n)
  | _ => Raise TypeError
  end.

Definition to_floats (s : list Cell) : result (list F) :=
  traverse as_float s.

(** [a / b] and [a * k] on float columns *)
Definition series_div (a b : list F) : list F := zip_with fdiv a b.

Definition series_mul (a : list F) (k : F) : list F :=
  map (fun x => fmul x k) a.

(** Reductions skip NaN ([skipna=True]). *)
Definition dropna (xs : list F) : list F :=
  List.filter (fun x => negb (is_nan x)) xs.

Definition series_sum (xs : list F) : F :=
  fold_left fadd (dropna xs) fzero.

Definition series_mean (xs : list F) : F :=
  match dropna xs with
  | [] => fnan
  | ys => fdiv (fold_left fadd ys fzero) (of_int (Z.of_nat (length ys)))
  end.

Definition fmax (a b : F) : F := if fleb a b then b else a.

Definition series_max (xs : list F) : F :=
  match dropna xs with
  | [] => fnan
  | y :: ys => fold_left fmax ys y
  end.

(** [df.groupby(by)[col].mean()]: the groups are kept sorted by key, each
    with its values in row order. *)
Fixpoint group_insert (k : Z) (x : F) (gs : list (Z * list F))
  : list (Z * list F) :=
  match gs with
  | [] => [(k, [x])]
  | (k', xs) :: gs' =>
      if Z.ltb k k' then (k, [x]) :: gs
      else if Z.eqb k k' then (k', xs ++ [x]) :: gs'
      else (k', xs) :: group_insert k x gs'
  end.

Definition groups (keys : list Z) (values : list F) : list (Z * list F) :=
  fold_left (fun gs kx => group_insert (fst kx) (snd kx) gs) (zip keys values) [].

Definition as_key (c : Cell) : result Z :=
  match c with
  | CInt n => Ok n
  | _ => Raise Unmodelled
  end.

Definition groupby_mean (df : DataFrame) (by_ col : string)
  : result (list (Z * F)) :=
  rbind (getitem df by_) (fun ks =>
  rbind (traverse as_key ks) (fun keys =>
  rbind (getitem df col) (fun vs =>
  rbind (to_floats vs) (fun values =>
  Ok (map (fun g => (fst g, series_mean (snd g))) (groups keys values)))))).

(** [df.to_csv(index=False)]: the header, then one line per row with the
    fields in column order; the index is not written. *)
Definition to_csv (df : DataFrame) : Csv :=
  {| header := columns df;
     lines := map (fun r => map (fun k => field_of_cell (cell r k)) (columns df))
                  (records df) |}.

(** [pd.read_csv(file)]: the header gives the columns, the rows are
    numbered from 0.  A line with more fields than the header is a parse
    error; one with fewer has missing values in its last columns.  Repeated
    column names, which pandas renames, are left out of the model. *)
Definition read_csv (file : Csv) : result DataFrame :=
  if negb (bool_decide (NoDup (header file))) then Raise Unmodelled
  else if forallb (fun l => Nat.leb (length l) (length (header file)))
            (lines file)
  then Ok {| columns := header file;
             index := seq 0 (length (lines file));
             records := map (fun l => list_to_map (zip (header file) (map cell_of_field l)))
                            (lines file) |}
  else Raise ParserError.

End Pandas.

(** ** The order on timestamps, for [Series.min] and [Series.max] *)

Definition timestamp_cmp (a b : Timestamp) : comparison :=
  lex (Nat.compare (year a) (year b))
   (lex (Nat.compare (month a) (month b))
     (lex (Nat.compare (day a) (day b))
          (time_cmp (time a) (time b)))).

Definition timestamp_min (a b : Timestamp) : Timestamp :=
  match timestamp_cmp b a with
  | Lt => b
  | _ => a
  end.

Definition timestamp_max (a b : Timestamp) : Timestamp :=
  match timestamp_cmp b a with
  | Gt => b
  | _ => a
  end.

(** [s.min().time()] and [s.max().time()]: the minimum of no rows is NaT,
    whose [time()] raises. *)
Definition min_time (s : list Timestamp) : result Time :=
  match s with
  | [] => Raise ValueError
  | t :: s' => Ok (time (fold_left timestamp_min s' t))
  end.

Definition max_time (s : list Timestamp) : result Time :=
  match s with
  | [] => Raise ValueError
  | t :: s' => Ok (time (fold_left timestamp_max s' t))
  end.

(** [st.sidebar.time_input(label, value=default)]: what the user picked, or
    the default while the widget is untouched. *)
Definition time_input (picked : option Time) (value : Time) : Time :=
  match picked with
  | Some t => t
  | None => value
  end.

(** The later and the earlier of two times of day. *)
Definition time_later (a b : Time) : Time := if time_le a b then b else a.

Definition time_earlier (a b : Time) : Time := if time_le a b then a else b.


Section Script.
Context {F : Type} {float64 : Float64 F} {codec : DatetimeCodec}.

(** ** The heap of frame objects and the script monad *)

Definition M (A : Type) : Type :=
  gmap nat (@DataFrame F) -> result (A * gmap nat (@DataFrame F)).

Definition ret {A} (a : A) : M A := fun h => Ok (a, h).

Definition bind {A B} (m : M A) (k : A -> M B) : M B :=
  fun h =>
    match m h with
    | Ok (a, h') => k a h'
    | Raise e => Raise e
    end.

Definition lift {A} (r : result A) : M A :=
  fun h =>
    match r with
    | Ok a => Ok (a, h)
    | Raise e => Raise e
    end.

Notation "'let*' x ':=' m 'in' k" := (bind m (fun x => k))
  (at level 10, x name, m at level 100, k at level 200, only parsing).

(** A new frame object. *)
Definition new_frame (df : DataFrame) : M nat :=
  fun h => let l := fresh (dom h) in Ok (l, <[l := df]> h).

Definition deref (l : nat) : M DataFrame :=
  fun h =>
    match h !! l with
    | Some df => Ok (df, h)
    | None => Raise Unmodelled
    end.

Definition store (l : nat) (df : DataFrame) : M unit :=
  fun h => Ok (tt, <[l := df]> h).

(** [df[key]], [df[key] = values] (in place) and [df[mask]] (a new
    object) on references. *)
Definition df_getitem (l : nat) (key : string) : M (list Cell) :=
  let* df := deref l in lift (getitem df key).

Definition df_setitem (l : nat) (key : string) (values : list Cell) : M unit :=
  let* df := deref l in
  let* df' := lift (setitem df key values) in
  store l df'.

Definition df_getitem_mask (l : nat) (mask : list bool) : M nat :=
  let* df := deref l in
  let* df' := lift (getitem_mask df mask) in
  new_frame df'.

(** ** The script *)

(** Lines 15-21. *)
Definition load_data (file : Csv) : M nat :=
  let* fr := lift (read_csv file) in
  let* df := new_frame fr in
  let* s := df_getitem df "Timestamp" in
  let* ts := lift (to_datetime s) in
  let* _ := df_setitem df "Timestamp" ts in
  let* s := df_getitem df "Timestamp" in
  let* hs := lift (dt_hour s) in
  let* _ := df_setitem df "Hour" hs in
  let* s := df_getitem df "Timestamp" in
  let* ms := lift (dt_month s) in
  let* _ := df_setitem df "Month" ms in
  ret df.

(** Lines 33-34: the two time pickers, whose defaults are the times of the
    earliest and of the latest timestamp. *)
Definition sidebar_filters (df : nat) (picked_start picked_end : option Time)
  : M (Time * Time) :=
  let* s := df_getitem df "Timestamp" in
  let* ts := lift (traverse dt s) in
  let* t0 := lift (min_time ts) in
  let* s := df_getitem df "Timestamp" in
  let* ts := lift (traverse dt s) in
  let* t1 := lift (max_time ts) in
  ret (time_input picked_start t0, time_input picked_end t1).

(** Lines 36-39. *)
Definition time_filter (df : nat) (start_time end_time : Time) : M nat :=
  let* s := df_getitem df "Timestamp" in
  let* ts := lift (dt_time s) in
  let* s' := df_getitem df "Timestamp" in
  let* ts' := lift (dt_time s') in
  df_getitem_mask df (mask_and (ge_time ts start_time) (le_time ts' end_time)).

(** Lines 46-49.  The cards print these four numbers with two, two, one and
    one decimals; printing is not modelled. *)
Record KPI := mkKPI {
  EnergySaved : F;
  CO2Saved : F;
  AvgPanelTemp : F;
  MaxPower : F
}.

Definition aggregate (df : nat) (key : string) (f : list F -> F) : M F :=
  let* s := df_getitem df key in
  let* xs := lift (to_floats s) in
  ret (f xs).

Definition kpi_cards (df_filtered : nat) : M KPI :=
  let* e := aggregate df_filtered "Energy_Saved_kWh" series_sum in
  let* c := aggregate df_filtered "CO2_Emissions_Saved_kg" series_sum in
  let* t := aggregate df_filtered "Panel_Temperature_C" series_mean in
  let* p := aggregate df_filtered "Power_Output_W" series_max in
  ret {| EnergySaved := e; CO2Saved := c; AvgPanelTemp := t; MaxPower := p |}.

(** Lines 54-55. *)
Definition PANEL_AREA : F := lit_1_6.

Definition efficiency_calculation (df_filtered : nat) : M unit :=
  let* p := df_getitem df_filtered "Power_Output_W" in
  let* i := df_getitem df_filtered "Solar_Irradiance_W/m2" in
  let* irradiance := lift (to_floats i) in
  let* power := lift (to_floats p) in
  df_setitem df_filtered "Efficiency"
    (map CFloat (series_div power (series_mul irradiance PANEL_AREA))).

(** Line 60: [df_filtered.head()].  The summary table of line 62 is the
    library's and is left out. *)
Definition preview (df_filtered : nat) : M DataFrame :=
  let* df := deref df_filtered in
  ret {| columns := columns df;
         index := take 5 (index df);
         records := take 5 (records df) |}.

(** Lines 69-82 and 88-95: every chart reads the columns it plots. *)
Definition line_plot (df : nat) (y : string) : M (list Cell * list Cell) :=
  let* xs := df_getitem df "Timestamp" in
  let* ys := df_getitem df y in
  ret (xs, ys).

Definition visualizations (df_filtered : nat)
  : M (list (list Cell * list Cell)) :=
  let* c1 := line_plot df_filtered "Power_Output_W" in
  let* c2 := line_plot df_filtered "Solar_Irradiance_W/m2" in
  let* c3 := line_plot df_filtered "Battery_Charge_Level_%" in
  let* c4 := line_plot df_filtered "CO2_Emissions_Saved_kg" in
  let* c5 := line_plot df_filtered "Efficiency" in
  let* c6 := line_plot df_filtered "Load_Consumption_W" in
  let* c7 := line_plot df_filtered "Power_Output_W" in
  ret [c1; c2; c3; c4; c5; c6; c7].

(** Lines 101-102. *)
Definition hourly_bar_chart (df_filtered : nat) : M (list (Z * F)) :=
  let* df := deref df_filtered in
  lift (groupby_mean df "Hour" "Power_Output_W").

(** Lines 108-113. *)
Inductive FaultReport :=
| Warning (faults : @DataFrame F)
| Success.

Definition fault_analysis (df_filtered : nat) : M FaultReport :=
  let* s := df_getitem df_filtered "Fault_Status" in
  let* faults := df_getitem_mask df_filtered (ne_str s "No Fault") in
  let* fr := deref faults in
  if negb (empty fr) then ret (Warning fr) else ret Success.

(** Lines 118-124. *)
Definition data_download (df_filtered : nat) : M Csv :=
  let* df := deref df_filtered in
  ret (to_csv df).

Record Report := mkReport {
  df_filtered_ref : nat;
  kpi : KPI;
  head : @DataFrame F;
  charts : list (list (@Cell F) * list (@Cell F));
  hourly_avg : list (Z * F);
  fault_report : FaultReport;
  csv : @Csv F
}.

(** Everything below the loader, lines 33-124. *)
Definition render (df : nat) (picked_start picked_end : option Time) : M Report :=
  let* se := sidebar_filters df picked_start picked_end in
  let* df_filtered := time_filter df (fst se) (snd se) in
  let* k := kpi_cards df_filtered in
  let* _ := efficiency_calculation df_filtered in
  let* hd := preview df_filtered in
  let* cs := visualizations df_filtered in
  let* ha := hourly_bar_chart df_filtered in
  let* fa := fault_analysis df_filtered in
  let* out := data_download df_filtered in
  ret {| df_filtered_ref := df_filtered; kpi := k; head := hd; charts := cs;
         hourly_avg := ha; fault_report := fa; csv := out |}.

(** The whole script; with no uploaded file it stops after a notice. *)
Definition dashboard (uploaded_file : option Csv)
    (picked_start picked_end : option Time) : M (option Report) :=
  match uploaded_file with
  | Some file =>
      let* df := load_data file in
      let* r := render df picked_start picked_end in
      ret (Some r)
  | None => ret None
  end.

End Script.

(** ** A concrete codec: [YYYY-MM-DD HH:MM:SS], with [.ffffff] when the
    microseconds are not zero *)
Module Iso.

Definition digit (n : nat) : ascii := ascii_of_nat (48 + n mod 10).

Fixpoint pad (width n : nat) : string :=
  match width with
  | O => EmptyString
  | S w => pad w (n / 10) ++ String (digit n) EmptyString
  end.

Definition format (t : Timestamp) : string :=
  pad 4 (year t) ++ "-" ++ pad 2 (month t) ++ "-" ++ pad 2 (day t) ++ " "
  ++ pad 2 (hour (time t)) ++ ":" ++ pad 2 (minute (time t)) ++ ":"
  ++ pad 2 (second (time t))
  ++ (if Nat.eqb (microsecond (time t)) 0 then EmptyString
      else "." ++ pad 6 (microsecond (time t))).

Definition digit_value (c : ascii) : option nat :=
  let n := nat_of_ascii c in
  if (48 <=? n) && (n <=? 57) then Some (n - 48) else None.

Fixpoint number (acc : nat) (cs : list ascii) : option nat :=
  match cs with
  | [] => Some acc
  | c :: cs' =>
      match digit_value c with
      | Some d => number (10 * acc + d) cs'
      | None => None
      end
  end.

(** Reads [width] digits, then the separator [sep]. *)
Definition field (width : nat) (sep : string) (cs : list ascii)
  : option (nat * list ascii) :=
  let rest := drop width cs in
  let s := list_ascii_of_string sep in
  if Nat.eqb (length (take width cs)) width
     && bool_decide (take (length s) rest = s)
  then match number 0 (take width cs) with
       | Some n => Some (n, drop (length s) rest)
       | None => None
       end
  else None.

Definition fraction (cs : list ascii) : option nat :=
  match cs with
  | [] => Some 0
  | c :: cs' =>
      if bool_decide (c = "."%char) && Nat.eqb (length cs') 6
      then number 0 cs' else None
  end.

Definition parse (text : string) : option Timestamp :=
  match field 4 "-" (list_ascii_of_string text) with
  | Some (y, r1) =>
  match field 2 "-" r1 with
  | Some (mo, r2) =>
  match field 2 " " r2 with
  | Some (d, r3) =>
  match field 2 ":" r3 with
  | Some (h, r4) =>
  match field 2 ":" r4 with
  | Some (mi, r5) =>
  match field 2 "" r5 with
  | Some (s, r6) =>
  match fraction r6 with
  | Some us =>
      if (1 <=? mo) && (mo <=? 12) && (1 <=? d) && (d <=? 31)
         && (h <? 24) && (mi <? 60) && (s <? 60)
      then Some (mkTimestamp y mo d (mkTime h mi s us))
      else None
  | None => None
  end
  | None => None
  end
  | None => None
  end
  | None => None
  end
  | None => None
  end
  | None => None
  end
  | None => None
  end.

#[export] Instance iso : DatetimeCodec := {|
  strptime := parse;
  strftime := format
|}.

End Iso.

(** ** What the properties speak of *)

Section Schema.
Context {F : Type} {float64 : Float64 F}.

Definition is_datetime (c : @Cell F) : bool :=
  match c with
  | CDatetime _ => true
  | _ => false
  end.

Definition is_number (c : @Cell F) : bool :=
  match c with
  | CFloat _ | CInt _ => true
  | _ => false
  end.



(** The number in a numeric cell. *)
Definition number (c : @Cell F) : F :=
  match c with
  | CFloat x => x
  | CInt n => of_int n
  | _ => fnan
  end.


(** The column [key] exists and all its cells satisfy [p]. *)
Definition column_is (p : @Cell F -> bool) (df : DataFrame) (key : string)
  : bool :=
  bool_decide (key ∈ columns df) && forallb (fun r => p (cell r key)) (records df).

(** One index label per row. *)
Definition aligned (df : @DataFrame F) : bool :=
  Nat.eqb (length (index df)) (length (records df)).

(** The rows of a frame, each under its index label. *)
Definition rows (df : @DataFrame F) : list (nat * gmap string Cell) :=
  zip (index df) (records df).

(** The time of day of a record's timestamp. *)
Definition time_of_day (r : gmap string (@Cell F)) : option Time :=
  match cell r "Timestamp" with
  | CDatetime t => Some (time t)
  | _ => None
  end.

(** The timestamp in a date-time cell. *)
Definition cell_timestamp (c : @Cell F) : Timestamp :=
  match c with
  | CDatetime t => t
  | _ => mkTimestamp 0 0 0 (mkTime 0 0 0 0)
  end.

(** The time of day in a date-time cell. *)
Definition cell_time (c : @Cell F) : Time :=
  match c with
  | CDatetime t => time t
  | _ => mkTime 0 0 0 0
  end.

(** [start <= t <= end] for the record's time of day [t]. *)
Definition within (start_time end_time : Time) (r : gmap string (@Cell F))
  : bool :=
  match time_of_day r with
  | Some t => time_le start_time t && time_le t end_time
  | None => false
  end.

(** The record's [Fault_Status] is not the text [No Fault]. *)
Definition faulty (r : gmap string (@Cell F)) : bool :=
  match cell r "Fault_Status" with
  | CStr x => negb (String.eqb x "No Fault")
  | _ => true
  end.





(** [Power_Output_W / (Solar_Irradiance_W/m2 * PANEL_AREA)] for one record. *)
Definition efficiency (r : gmap string (@Cell F)) : F :=
  fdiv (number (cell r "Power_Output_W"))
       (fmul (number (cell r "Solar_Irradiance_W/m2")) PANEL_AREA).

(** The frame with the column [Efficiency] set in every row. *)
Definition with_efficiency (df : @DataFrame F) : DataFrame :=
  {| columns := if bool_decide ("Efficiency" ∈ columns df)
                then columns df else columns df ++ ["Efficiency"];
     index := index df;
     records := map (fun r => <["Efficiency" := CFloat (efficiency r)]> r)
                    (records df) |}.

(** The numbers of the column [key]. *)
Definition numbers (df : @DataFrame F) (key : string) : list F :=
  map (fun r => number (cell r key)) (records df).

(** The four cards computed from the columns of a frame. *)
Definition cards (df : @DataFrame F) : KPI :=
  {| EnergySaved := series_sum (numbers df "Energy_Saved_kWh");
     CO2Saved := series_sum (numbers df "CO2_Emissions_Saved_kg");
     AvgPanelTemp := series_mean (numbers df "Panel_Temperature_C");
     MaxPower := series_max (numbers df "Power_Output_W") |}.

(** A computation that leaves the heap as it found it. *)
Definition read_only {A} (m : @M F A) : Prop :=
  forall h a h', m h = Ok (a, h') -> h' = h.

(** The rows whose [Fault_Status] is not [No Fault]. *)
Definition fault_rows (df : @DataFrame F) : DataFrame :=
  {| columns := columns df;
     index := select (map faulty (records df)) (index df);
     records := select (map faulty (records df)) (records df) |}.








(** The frame [df[mask]] for the mask of the window. *)
Definition window_view (df : @DataFrame F) (start_time end_time : Time)
  : DataFrame :=
  {| columns := columns df;
     index := select (map (within start_time end_time) (records df)) (index df);
     records := select (map (within start_time end_time) (records df)) (records df) |}.


(** The record's time of day is [t]. *)
Definition at_time (t : Time) (r : gmap string (@Cell F)) : bool :=
  bool_decide (time_of_day r = Some t).



End Schema.

Section ExportSchema.
Context {F : Type} {float64 : Float64 F} {codec : DatetimeCodec}.



Definition cell_is_int (c : @Cell F) (n : nat) : bool :=
  match c with
  | CInt z => Z.eqb z (Z.of_nat n)
  | _ => false
  end.

(** [Hour] and [Month] are those of the record's timestamp. *)
Definition derived (r : gmap string (@Cell F)) : bool :=
  match cell r "Timestamp" with
  | CDatetime t =>
      cell_is_int (cell r "Hour") (hour (time t))
      && cell_is_int (cell r "Month") (month t)
  | _ => false
  end.

(** What holds of a frame that the loader returned, and of its filtered
    views: the column names differ, [Timestamp] is the only column of
    date-times, and [Hour] and [Month] are derived from it. *)
Definition loaded (df : @DataFrame F) : bool :=
  bool_decide (NoDup (columns df))
  && bool_decide ("Timestamp" ∈ columns df)
  && bool_decide ("Hour" ∈ columns df)
  && bool_decide ("Month" ∈ columns df)
  && forallb (fun r =>
       derived r
       && forallb (fun k => String.eqb k "Timestamp"
                            || negb (is_datetime (cell r k))) (columns df))
       (records df).



End ExportSchema.

Section LoaderSchema.
Context {F : Type} {float64 : Float64 F} {codec : DatetimeCodec}.

(** [pd.to_datetime] accepts the cell. *)
Definition parses (c : @Cell F) : bool :=
  match parse_datetime c with
  | Ok _ => true
  | Raise _ => false
  end.

(** A text cell. *)
Definition is_text (c : @Cell F) : bool :=
  match c with
  | CStr _ => true
  | _ => false
  end.

(** The columns after [df[key] = ...]. *)
Definition with_column (key : string) (cols : list string) : list string :=
  if bool_decide (key ∈ cols) then cols else cols ++ [key].

(** A record of the table as the loader leaves it: the timestamp parsed,
    [Hour] and [Month] set from it. *)
Definition load_record (r : gmap string (@Cell F)) : gmap string Cell :=
  let t := cell_timestamp (value_or NaN (parse_datetime (cell r "Timestamp"))) in
  <["Month" := CInt (Z.of_nat (month t))]>
    (<["Hour" := CInt (Z.of_nat (hour (time t)))]>
      (<["Timestamp" := CDatetime t]> r)).

(** The frame the loader makes of the table [fr]. *)
Definition load_frame (fr : @DataFrame F) : DataFrame :=
  {| columns := with_column "Month" (with_column "Hour" (columns fr));
     index := index fr;
     records := map load_record (records fr) |}.


End LoaderSchema.

(** ** A small dataset

    Four samples of one morning.  The first has efficiency 1, the third
    was taken at zero irradiance, the last one reports a fault. *)

Section SampleData.
Context {F : Type} {float64 : Float64 F}.

Definition sample_line (stamp : string) (power irradiance : Z) (status : string)
  : list (@Field F) :=
  [FStr stamp; FFloat (of_int power); FFloat (of_int irradiance);
   FFloat (of_int 50); FFloat (of_int 1); FFloat (of_int 2);
   FFloat (of_int 30); FFloat (of_int 80); FStr status].

Definition sample_file : @Csv F :=
  {| header := ["Timestamp"; "Power_Output_W"; "Solar_Irradiance_W/m2";
                "Battery_Charge_Level_%"; "CO2_Emissions_Saved_kg";
                "Energy_Saved_kWh"; "Panel_Temperature_C";
                "Load_Consumption_W"; "Fault_Status"];
     lines := [sample_line "2024-01-05 09:30:00" 160 100 "No Fault";
               sample_line "2024-01-05 10:00:00" 100 50 "No Fault";
               sample_line "2024-01-05 10:20:00" 200 0 "No Fault";
               sample_line "2024-01-05 10:40:00" 300 80 "Overheat"] |}.

(** The heap after the loader ran on the sample file, the loaded frame
    being the object 0. *)
Definition sample_heap : gmap nat (@DataFrame F) :=
  match load_data (codec := Iso.iso) sample_file ∅ with
  | Ok (_, h) => h
  | Raise _ => ∅
  end.

Definition sample_df : @DataFrame F :=
  default {| columns := []; index := []; records := [] |} (sample_heap !! 0).

(** The heap after the filter ran with the window from [start_time] to
    [end_time], the view being the object 1. *)
Definition sample_filtered (start_time end_time : Time)
  : gmap nat (@DataFrame F) :=
  match time_filter 0 start_time end_time sample_heap with
  | Ok (_, h) => h
  | Raise _ => ∅
  end.

Definition sample_view (start_time end_time : Time) : @DataFrame F :=
  default {| columns := []; index := []; records := [] |}
    (sample_filtered start_time end_time !! 1).

(** Tables the script stops on: one without timestamps, one with a
    timestamp that is no date, one with the header alone, and one without
    the column of the second card, whose loaded frame is the object 0 of
    its heap. *)
Definition no_timestamp_file : @Csv F :=
  {| header := ["Power_Output_W"];
     lines := [[FFloat (of_int 160)]] |}.

Definition bad_timestamp_file : @Csv F :=
  {| header := ["Timestamp"; "Power_Output_W"];
     lines := [[FStr "2024-01-05 09:30:00"; FFloat (of_int 160)];
               [FStr "yesterday"; FFloat (of_int 100)]] |}.

Definition header_only_file : @Csv F :=
  {| header := header sample_file; lines := [] |}.




End SampleData.

(** Closes a goal about the sample by evaluation. *)
Ltac by_computation :=
  first [ vm_compute; reflexivity
        | apply (bool_decide_unpack _); vm_compute; exact I ].

(** * Properties *)

(** ** The order on times of day *)

Lemma lex_opp c1 c2 : lex (CompOpp c1) (CompOpp c2) = CompOpp (lex c1 c2).
Proof. by destruct c1. Qed.

Lemma time_cmp_opp a b : time_cmp b a = CompOpp (time_cmp a b).
Proof.
  unfold time_cmp.
  rewrite (Nat.compare_antisym (hour a) (hour b)),
    (Nat.compare_antisym (minute a) (minute b)),
    (Nat.compare_antisym (second a) (second b)),
    (Nat.compare_antisym (microsecond a) (microsecond b)).
  by rewrite !lex_opp.
Qed.

Lemma time_ge_le a b : time_ge a b = time_le b a.
Proof.
  unfold time_ge, time_le. rewrite (time_cmp_opp a b).
  by destruct (time_cmp a b).
Qed.

Lemma time_gt_le a b : time_gt a b = negb (time_le a b).
Proof. unfold time_gt, time_le. by destruct (time_cmp a b). Qed.

Lemma lex_not_gt_trans (x y z : nat) c12 c23 c13 :
  (c12 <> Gt -> c23 <> Gt -> c13 <> Gt) ->
  lex (x ?= y) c12 <> Gt -> lex (y ?= z) c23 <> Gt ->
  lex (x ?= z) c13 <> Gt.
Proof.
  intros Hrec.
  destruct (Nat.compare_spec x y), (Nat.compare_spec y z),
    (Nat.compare_spec x z); simpl; try lia; try done; auto.
Qed.

Lemma time_le_trans a b c :
  time_le a b = true -> time_le b c = true -> time_le a c = true.
Proof.
  assert (Hle : forall x y, time_le x y = true <-> time_cmp x y <> Gt).
  { intros x y. unfold time_le. destruct (time_cmp x y); split; done. }
  rewrite !Hle. unfold time_cmp.
  do 3 apply lex_not_gt_trans.
  destruct (Nat.compare_spec (microsecond a) (microsecond b)),
    (Nat.compare_spec (microsecond b) (microsecond c)),
    (Nat.compare_spec (microsecond a) (microsecond c)); try lia; done.
Qed.

(** No time of day lies in a window whose start is after its end. *)
Lemma window_empty s e t :
  time_gt s e = true -> time_le s t && time_le t e = false.
Proof.
  rewrite time_gt_le. intros Hgt.
  destruct (time_le s t) eqn:H1, (time_le t e) eqn:H2; try done.
  by rewrite (time_le_trans _ _ _ H1 H2) in Hgt.
Qed.

(** ** Lists: masks and traversals *)

Lemma traverse_map {A B} (f : A -> result B) (g : A -> B) (xs : list A) :
  Forall (fun x => f x = Ok (g x)) xs -> traverse f xs = Ok (map g xs).
Proof.
  induction 1 as [|x xs Hx _ IH]; simpl; [done|].
  by rewrite Hx, IH.
Qed.

Lemma traverse_map_on {A B C} (f : B -> result C) (g : A -> B) (k : A -> C)
    (xs : list A) :
  Forall (fun x => f (g x) = Ok (k x)) xs ->
  traverse f (map g xs) = Ok (map k xs).
Proof.
  induction 1 as [|x xs Hx _ IH]; simpl; [done|].
  by rewrite Hx, IH.
Qed.

Lemma select_map_filter {A} (p : A -> bool) (xs : list A) :
  select (map p xs) xs = List.filter p xs.
Proof.
  induction xs as [|x xs IH]; simpl; [done|].
  by destruct (p x); rewrite IH.
Qed.

Lemma select_zip {A B} (mask : list bool) (xs : list A) (ys : list B) :
  select mask (zip xs ys) = zip (select mask xs) (select mask ys).
Proof.
  revert xs ys. induction mask as [|b mask IH]; intros [|x xs] [|y ys];
    simpl; try done.
  - by destruct b, (select mask xs).
  - destruct b; simpl; by rewrite IH.
Qed.

Lemma select_length {A B} (mask : list bool) (xs : list A) (ys : list B) :
  length xs = length ys ->
  length (select mask xs) = length (select mask ys).
Proof.
  revert xs ys. induction mask as [|b mask IH]; intros [|x xs] [|y ys];
    simpl; try done.
  intros Hlen. destruct b; simpl; rewrite (IH xs ys); lia.
Qed.

Lemma select_sublist {A} (mask : list bool) (xs : list A) :
  sublist (select mask xs) xs.
Proof.
  revert xs. induction mask as [|b mask IH]; intros [|x xs]; simpl;
    try apply sublist_nil_l.
  destruct b; [by apply sublist_skip | by apply sublist_cons].
Qed.

Lemma map_snd_zip {A B} (xs : list A) (ys : list B) :
  length xs = length ys -> map snd (zip xs ys) = ys.
Proof.
  revert ys. induction xs as [|x xs IH]; intros [|y ys]; simpl; try done.
  intros Hlen. rewrite IH; [done | lia].
Qed.

Lemma zip_with_map_same {A B C D} (f : B -> C -> D) (g : A -> B) (k : A -> C)
    (xs : list A) :
  zip_with f (map g xs) (map k xs) = map (fun x => f (g x) (k x)) xs.
Proof. induction xs as [|x xs IH]; simpl; [done | by rewrite IH]. Qed.

Lemma filter_none {A} (p : A -> bool) (xs : list A) :
  Forall (fun x => p x = false) xs -> List.filter p xs = [].
Proof.
  induction 1 as [|x xs Hx _ IH]; simpl; [done|]. by rewrite Hx.
Qed.

Lemma forallb_Forall {A} (p : A -> bool) (xs : list A) :
  forallb p xs = true <-> Forall (fun x => p x = true) xs.
Proof.
  induction xs as [|x xs IH]; simpl.
  - split; [constructor | done].
  - rewrite andb_true_iff, Forall_cons, IH. done.
Qed.

Lemma elem_of_filter_bool {A} (p : A -> bool) (xs : list A) x :
  x ∈ List.filter p xs <-> x ∈ xs /\ p x = true.
Proof. rewrite !list_elem_of_In. apply filter_In. Qed.

(** ** Running the script monad *)

Section Run.
Context {F : Type} {float64 : Float64 F} {codec : DatetimeCodec}.

Implicit Types (h : gmap nat (@DataFrame F)) (df : @DataFrame F).

Lemma bind_run {A B} (m : M A) (k : A -> M B) h a h' :
  m h = Ok (a, h') -> bind m k h = k a h'.
Proof. unfold bind. by intros ->. Qed.

Lemma lift_run {A} (r : result A) a h : r = Ok a -> lift r h = Ok (a, h).
Proof. by intros ->. Qed.

Lemma deref_run l h df : h !! l = Some df -> deref l h = Ok (df, h).
Proof. unfold deref. by intros ->. Qed.

Lemma df_getitem_run l key h df s :
  h !! l = Some df -> getitem df key = Ok s ->
  df_getitem l key h = Ok (s, h).
Proof.
  intros Hl Hs. unfold df_getitem.
  rewrite (bind_run _ _ _ _ _ (deref_run _ _ _ Hl)).
  by apply lift_run.
Qed.

Lemma df_setitem_run l key values h df df' :
  h !! l = Some df -> setitem df key values = Ok df' ->
  df_setitem l key values h = Ok (tt, <[l := df']> h).
Proof.
  intros Hl Hs. unfold df_setitem.
  rewrite (bind_run _ _ _ _ _ (deref_run _ _ _ Hl)).
  by rewrite (bind_run _ _ _ _ _ (lift_run _ _ _ Hs)).
Qed.

Lemma df_getitem_mask_run l mask h df df' :
  h !! l = Some df -> getitem_mask df mask = Ok df' ->
  df_getitem_mask l mask h = Ok (fresh (dom h), <[fresh (dom h) := df']> h).
Proof.
  intros Hl Hs. unfold df_getitem_mask.
  rewrite (bind_run _ _ _ _ _ (deref_run _ _ _ Hl)).
  by rewrite (bind_run _ _ _ _ _ (lift_run _ _ _ Hs)).
Qed.

Lemma fresh_not_allocated h : h !! fresh (dom h) = None.
Proof. apply not_elem_of_dom, is_fresh. Qed.

(** ** Columns *)

Lemma column_is_spec p df key :
  column_is p df key = true <->
  key ∈ columns df /\ Forall (fun r => p (cell r key) = true) (records df).
Proof.
  unfold column_is.
  rewrite andb_true_iff, bool_decide_eq_true, forallb_Forall. done.
Qed.

Lemma getitem_column p df key :
  column_is p df key = true ->
  getitem df key = Ok (map (fun r => cell r key) (records df)).
Proof.
  rewrite column_is_spec. intros [Hin _]. unfold getitem.
  by rewrite bool_decide_eq_true_2.
Qed.

Lemma getitem_mask_ok df mask :
  length mask = length (records df) ->
  getitem_mask df mask
  = Ok {| columns := columns df;
          index := select mask (index df);
          records := select mask (records df) |}.
Proof.
  intros Hlen. unfold getitem_mask. by rewrite Hlen, Nat.eqb_refl.
Qed.

Lemma rows_getitem_mask df mask view :
  getitem_mask df mask = Ok view -> rows view = select mask (rows df).
Proof.
  unfold getitem_mask. destruct (Nat.eqb _ _); [|done].
  intros [= <-]. unfold rows. simpl. by rewrite select_zip.
Qed.

Lemma aligned_getitem_mask df mask view :
  aligned df = true -> getitem_mask df mask = Ok view -> aligned view = true.
Proof.
  unfold getitem_mask, aligned. intros Hal%Nat.eqb_eq.
  destruct (Nat.eqb (length mask) _); [|done].
  intros [= <-]. simpl. apply Nat.eqb_eq. by apply select_length.
Qed.

End Run.

(** ** The time filter (lines 36-39) *)

Section TimeFilter.
Context {F : Type} {float64 : Float64 F} {codec : DatetimeCodec}.

Implicit Types (h : gmap nat (@DataFrame F)) (df : @DataFrame F).

Lemma dt_time_column df key :
  column_is is_datetime df key = true ->
  dt_time (map (fun r => cell r key) (records df))
  = Ok (map (fun r => cell_time (cell r key)) (records df)).
Proof.
  rewrite column_is_spec. intros [_ Hall]. unfold dt_time.
  rewrite <- (map_map (fun r => cell r key) cell_time).
  apply traverse_map. apply Forall_map.
  eapply Forall_impl; [exact Hall|]. simpl. intros r.
  by destruct (cell r key).
Qed.

Lemma window_mask df start_time end_time :
  column_is is_datetime df "Timestamp" = true ->
  mask_and
    (ge_time (map (fun r => cell_time (cell r "Timestamp")) (records df)) start_time)
    (le_time (map (fun r => cell_time (cell r "Timestamp")) (records df)) end_time)
  = map (within start_time end_time) (records df).
Proof.
  rewrite column_is_spec. intros [_ Hall].
  unfold mask_and, ge_time, le_time. rewrite !map_map, zip_with_map_same.
  apply map_ext_Forall. eapply Forall_impl; [exact Hall|]. simpl.
  intros r Hr. unfold within, time_of_day. rewrite time_ge_le.
  by destruct (cell r "Timestamp").
Qed.

Lemma time_filter_run h l df start_time end_time :
  h !! l = Some df ->
  column_is is_datetime df "Timestamp" = true ->
  time_filter l start_time end_time h
  = Ok (fresh (dom h),
        <[fresh (dom h) := window_view df start_time end_time]> h).
Proof.
  intros Hl Hts. unfold time_filter.
  pose proof (getitem_column _ _ _ Hts) as Hget.
  pose proof (dt_time_column _ _ Hts) as Hdt.
  rewrite (bind_run _ _ _ _ _ (df_getitem_run _ _ _ _ _ Hl Hget)).
  rewrite (bind_run _ _ _ _ _ (lift_run _ _ _ Hdt)).
  rewrite (bind_run _ _ _ _ _ (df_getitem_run _ _ _ _ _ Hl Hget)).
  rewrite (bind_run _ _ _ _ _ (lift_run _ _ _ Hdt)).
  rewrite (window_mask _ _ _ Hts).
  apply (df_getitem_mask_run _ _ _ _ _ Hl).
  apply getitem_mask_ok. by rewrite length_map.
Qed.

Lemma rows_window_view df start_time end_time :
  aligned df = true ->
  rows (window_view df start_time end_time)
  = List.filter (fun ir => within start_time end_time ir.2) (rows df).
Proof.
  intros Hal%Nat.eqb_eq. unfold rows at 1. simpl.
  rewrite <- select_zip. fold (rows df).
  rewrite <- (select_map_filter _ (rows df)).
  rewrite <- (map_map snd (within start_time end_time)).
  unfold rows. by rewrite map_snd_zip.
Qed.

Lemma aligned_window_view df start_time end_time :
  aligned df = true -> aligned (window_view df start_time end_time) = true.
Proof.
  unfold aligned. intros Hal%Nat.eqb_eq. apply Nat.eqb_eq. simpl.
  by apply select_length.
Qed.

Lemma select_Forall {A} (P : A -> Prop) (mask : list bool) (xs : list A) :
  Forall P xs -> Forall P (select mask xs).
Proof.
  intros Hall. eapply Forall_forall. intros x Hx.
  eapply Forall_forall; [exact Hall|].
  eapply elem_of_sublist; [exact Hx|]. apply select_sublist.
Qed.

Lemma column_is_window_view p df key start_time end_time :
  column_is p df key = true ->
  column_is p (window_view df start_time end_time) key = true.
Proof.
  rewrite !column_is_spec. intros [Hin Hall]. split; [done|].
  simpl. by apply select_Forall.
Qed.

(** C1: for a window with [start <= end], the filter returns a new frame
    with the columns of the dataset whose rows are exactly the rows of the
    dataset with [start <= t <= end] for the time of day [t] of their
    timestamp (both bounds included), in the order of the dataset. *)
Theorem time_filter_exact h df_ref df (start_time end_time : Time) :
  h !! df_ref = Some df ->
  aligned df = true ->
  column_is is_datetime df "Timestamp" = true ->
  time_le start_time end_time = true ->
  exists view,
    time_filter df_ref start_time end_time h
    = Ok (fresh (dom h), <[fresh (dom h) := view]> h)
    /\ columns view = columns df
    /\ (forall i r, (i, r) ∈ rows view <->
          (i, r) ∈ rows df /\
          exists t, time_of_day r = Some t
            /\ time_le start_time t = true /\ time_le t end_time = true)
    /\ sublist (rows view) (rows df)
    /\ rows view
       = List.filter (fun ir => within start_time end_time ir.2) (rows df).
Proof.
  intros Hl Hal Hts _. exists (window_view df start_time end_time).
  split; [by apply time_filter_run|]. split; [done|].
  rewrite (rows_window_view _ _ _ Hal). split; [|split; [|done]].
  - intros i r. rewrite elem_of_filter_bool. simpl.
    unfold within. destruct (time_of_day r) as [t|].
    + rewrite andb_true_iff. split.
      * intros [? [? ?]]. split; [done|]. by exists t.
      * intros [? (t' & [= <-] & ? & ?)]. done.
    + split; [intros [_ ?]; done|]. by intros [_ (t & ? & _)].
  - rewrite <- select_map_filter. apply select_sublist.
Qed.

(** C5: when [start > end] the filter returns, without raising, a view
    with no rows: no time of day is compared across midnight. *)
Theorem time_filter_reversed_window h df_ref df (start_time end_time : Time) :
  h !! df_ref = Some df ->
  aligned df = true ->
  column_is is_datetime df "Timestamp" = true ->
  time_gt start_time end_time = true ->
  exists view,
    time_filter df_ref start_time end_time h
    = Ok (fresh (dom h), <[fresh (dom h) := view]> h)
    /\ columns view = columns df
    /\ index view = []
    /\ records view = [].
Proof.
  intros Hl Hal Hts Hgt. exists (window_view df start_time end_time).
  split; [by apply time_filter_run|]. split; [done|].
  assert (Hrows : rows (window_view df start_time end_time) = []).
  { rewrite (rows_window_view _ _ _ Hal). apply filter_none.
    apply Forall_forall. intros [i r] _. simpl. unfold within.
    destruct (time_of_day r); [|done]. by apply window_empty. }
  pose proof (aligned_window_view _ start_time end_time Hal) as Hal'.
  apply Nat.eqb_eq in Hal'. unfold rows in Hrows.
  destruct (index (window_view df start_time end_time)) as [|i is_],
    (records (window_view df start_time end_time)) as [|r rs]; done.
Qed.

(** C10: filtering the filtered view again with the same window returns a
    frame equal to it: same columns, same rows, same order. *)
Theorem time_filter_idempotent h df_ref df (start_time end_time : Time) :
  h !! df_ref = Some df ->
  aligned df = true ->
  column_is is_datetime df "Timestamp" = true ->
  exists v1 h1 v2 h2 view,
    time_filter df_ref start_time end_time h = Ok (v1, h1)
    /\ time_filter v1 start_time end_time h1 = Ok (v2, h2)
    /\ h1 !! v1 = Some view
    /\ h2 !! v2 = Some view.
Proof.
  intros Hl Hal Hts.
  set (view := window_view df start_time end_time).
  set (v1 := fresh (dom h)). set (h1 := <[v1 := view]> h).
  assert (Hv1 : h1 !! v1 = Some view) by apply lookup_insert_eq.
  pose proof (column_is_window_view _ _ _ start_time end_time Hts) as Hts'.
  exists v1, h1, (fresh (dom h1)),
    (<[fresh (dom h1) := window_view view start_time end_time]> h1), view.
  split; [by apply time_filter_run|].
  split; [by apply time_filter_run|]. split; [done|].
  rewrite lookup_insert_eq. f_equal.
  assert (Hmask : Forall (fun r => within start_time end_time r = true)
                    (records view)).
  { unfold view. simpl. rewrite select_map_filter.
    apply Forall_forall. intros r Hr.
    by apply elem_of_filter_bool in Hr as [_ ?]. }
  assert (Hall : forall (A : Type) (xs : list A),
    length xs = length (records view) ->
    select (map (within start_time end_time) (records view)) xs = xs).
  { intros A xs. revert Hmask. generalize (records view) as rs.
    intros rs Hrs. revert xs. induction Hrs as [|r rs Hr _ IH];
      intros [|x xs]; simpl; try done.
    intros Hlen. rewrite Hr, IH; [done | lia]. }
  unfold window_view at 1.
  rewrite (Hall _ (records view) eq_refl).
  rewrite (Hall _ (index view)).
  - by destruct view.
  - apply Nat.eqb_eq. by apply aligned_window_view.
Qed.

End TimeFilter.

(** ** The fault report (lines 108-113) *)

Section Faults.
Context {F : Type} {float64 : Float64 F} {codec : DatetimeCodec}.

Implicit Types (h : gmap nat (@DataFrame F)) (df : @DataFrame F).

Lemma faulty_spec (r : gmap string (@Cell F)) :
  faulty r = true <-> cell r "Fault_Status" <> CStr "No Fault".
Proof.
  unfold faulty. destruct (cell r "Fault_Status") as [| |x|]; try done.
  rewrite negb_true_iff. destruct (String.eqb_spec x "No Fault") as [->|Hne].
  - split; [done | by intros []].
  - split; [|done]. intros _ [= ->]. done.
Qed.

Lemma ne_str_faulty (rs : list (gmap string (@Cell F))) :
  ne_str (map (fun r => cell r "Fault_Status") rs) "No Fault" = map faulty rs.
Proof. unfold ne_str. rewrite map_map. done. Qed.

Lemma rows_select_faulty df :
  aligned df = true ->
  select (map faulty (records df)) (rows df)
  = List.filter (fun ir => faulty ir.2) (rows df).
Proof.
  intros Hal%Nat.eqb_eq.
  rewrite <- (select_map_filter _ (rows df)).
  rewrite <- (map_map snd faulty). unfold rows. by rewrite map_snd_zip.
Qed.

Lemma fault_analysis_run h v view :
  h !! v = Some view ->
  "Fault_Status" ∈ columns view ->
  fault_analysis v h
  = Ok (if negb (empty (fault_rows view)) then Warning (fault_rows view)
        else Success,
        <[fresh (dom h) := fault_rows view]> h).
Proof.
  intros Hv Hin.
  assert (Hget : getitem view "Fault_Status"
                 = Ok (map (fun r => cell r "Fault_Status") (records view))).
  { unfold getitem. by rewrite bool_decide_eq_true_2. }
  assert (Hmask : getitem_mask view
                    (ne_str (map (fun r => cell r "Fault_Status") (records view))
                       "No Fault") = Ok (fault_rows view)).
  { rewrite ne_str_faulty. apply getitem_mask_ok. by rewrite length_map. }
  unfold fault_analysis.
  rewrite (bind_run _ _ _ _ _ (df_getitem_run _ _ _ _ _ Hv Hget)).
  rewrite (bind_run _ _ _ _ _ (df_getitem_mask_run _ _ _ _ _ Hv Hmask)).
  rewrite (bind_run _ _ _ _ _
             (deref_run _ _ _
                (lookup_insert_eq h (fresh (dom h)) (fault_rows view)))).
  by destruct (empty (fault_rows view)).
Qed.

Lemma rows_fault_rows view :
  aligned view = true ->
  rows (fault_rows view) = List.filter (fun ir => faulty ir.2) (rows view).
Proof.
  intros Hal. unfold rows at 1. simpl. rewrite <- select_zip.
  by apply rows_select_faulty.
Qed.

Lemma empty_fault_rows view :
  aligned view = true -> "Fault_Status" ∈ columns view ->
  empty (fault_rows view) = true <-> rows (fault_rows view) = [].
Proof.
  intros Hal%Nat.eqb_eq Hin. unfold empty, rows. simpl.
  destruct (columns view) as [|c cs]; [by apply elem_of_nil in Hin|].
  pose proof (select_length (map faulty (records view)) _ _ Hal) as Hlen.
  destruct (select _ (index view)), (select _ (records view));
    simpl in *; done.
Qed.

(** C7: the fault table holds exactly the rows whose [Fault_Status] is
    not the text [No Fault], in the order of the view; the warning (with
    that table) is given when there is such a row, the success notice
    otherwise. *)
Theorem fault_analysis_exact h v view :
  h !! v = Some view ->
  aligned view = true ->
  "Fault_Status" ∈ columns view ->
  exists report faults,
    fault_analysis v h = Ok (report, <[fresh (dom h) := faults]> h)
    /\ columns faults = columns view
    /\ (forall i r, (i, r) ∈ rows faults <->
          (i, r) ∈ rows view /\ cell r "Fault_Status" <> CStr "No Fault")
    /\ sublist (rows faults) (rows view)
    /\ rows faults = List.filter (fun ir => faulty ir.2) (rows view)
    /\ (report = Warning faults <->
        exists i r, (i, r) ∈ rows view
          /\ cell r "Fault_Status" <> CStr "No Fault")
    /\ (report = Success <->
        forall i r, (i, r) ∈ rows view
          -> cell r "Fault_Status" = CStr "No Fault").
Proof.
  intros Hv Hal Hin.
  set (faults := fault_rows view).
  pose proof (rows_fault_rows _ Hal) as Hrows. fold faults in Hrows.
  pose proof (empty_fault_rows _ Hal Hin) as Hempty. fold faults in Hempty.
  assert (Hmem : forall i r, (i, r) ∈ rows faults <->
            (i, r) ∈ rows view /\ cell r "Fault_Status" <> CStr "No Fault").
  { intros i r. rewrite Hrows, elem_of_filter_bool. simpl.
    by rewrite faulty_spec. }
  exists (if negb (empty faults) then Warning faults else Success), faults.
  split; [by apply fault_analysis_run|].
  split; [done|]. split; [done|].
  split; [|split; [done|]; split].
  - rewrite Hrows, <- select_map_filter. apply select_sublist.
  - split.
    + destruct (empty faults) eqn:He; [done|]. intros _.
      destruct (rows faults) as [|[i r] rs] eqn:Hrs.
      { by pose proof (proj2 Hempty eq_refl). }
      exists i, r. apply Hmem. left.
    + intros (i & r & Hir). apply Hmem in Hir.
      destruct (empty faults) eqn:He; [|done].
      rewrite (proj1 Hempty eq_refl) in Hir. by apply elem_of_nil in Hir.
  - split.
    + destruct (empty faults) eqn:He; [|done]. intros _ i r Hir.
      destruct (faulty r) eqn:Hf.
      * apply faulty_spec in Hf.
        pose proof (proj2 (Hmem i r) (conj Hir Hf)) as Hmemb.
        rewrite (proj1 Hempty eq_refl) in Hmemb. by apply elem_of_nil in Hmemb.
      * unfold faulty in Hf. destruct (cell r "Fault_Status") as [| |x|];
          try done.
        apply negb_false_iff, String.eqb_eq in Hf. by subst.
    + intros Hnone. destruct (empty faults) eqn:He; [done|].
      assert (rows faults = []) as Hnil; [|by apply Hempty in Hnil].
      destruct (rows faults) as [|[i r] rs] eqn:Hrs; [done|].
      destruct (proj1 (Hmem i r)) as [Hir Hne]; [left|].
      by destruct Hne, (Hnone i r).
Qed.

End Faults.

(** ** The hourly averages (lines 101-102) *)

Section Groups.
Context {F : Type} {float64 : Float64 F}.

Implicit Types (gs : list (Z * list F)) (k : Z) (x : F).












End Groups.

Section Hourly.
Context {F : Type} {float64 : Float64 F} {codec : DatetimeCodec}.

Implicit Types (h : gmap nat (@DataFrame F)) (df : @DataFrame F).


Lemma to_floats_column df key :
  column_is is_number df key = true ->
  to_floats (map (fun r => cell r key) (records df))
  = Ok (map (fun r => number (cell r key)) (records df)).
Proof.
  rewrite column_is_spec. intros [_ Hall]. unfold to_floats.
  rewrite <- (map_map (fun r => cell r key) number).
  apply traverse_map. apply Forall_forall. intros c Hc.
  apply list_elem_of_In, in_map_iff in Hc as (r & <- & Hr).
  eapply Forall_forall in Hall; [|by apply list_elem_of_In].
  by destruct (cell r key).
Qed.






End Hourly.

(** ** The efficiency column (lines 54-55) *)

Section Efficiency.
Context {F : Type} {float64 : Float64 F}.

Implicit Types (h : gmap nat (@DataFrame F)) (df : @DataFrame F).

Lemma zip_with_map_r {A B C} (f : A -> B -> C) (g : A -> B) (xs : list A) :
  zip_with f xs (map g xs) = map (fun x => f x (g x)) xs.
Proof. induction xs as [|x xs IH]; simpl; [done | by rewrite IH]. Qed.

Lemma lookup_map {A B} (f : A -> B) (xs : list A) (i : nat) :
  map f xs !! i = f <$> xs !! i.
Proof.
  revert i. induction xs as [|x xs IH]; intros [|i]; simpl; done.
Qed.

Lemma efficiency_values df :
  map CFloat
    (series_div
       (map (fun r => number (cell r "Power_Output_W")) (records df))
       (series_mul
          (map (fun r => number (cell r "Solar_Irradiance_W/m2")) (records df))
          PANEL_AREA))
  = map (fun r => CFloat (efficiency r)) (records df).
Proof.
  unfold series_div, series_mul. rewrite map_map, zip_with_map_same.
  by rewrite map_map.
Qed.

Lemma efficiency_calculation_run h v view :
  h !! v = Some view ->
  column_is is_number view "Power_Output_W" = true ->
  column_is is_number view "Solar_Irradiance_W/m2" = true ->
  efficiency_calculation v h = Ok (tt, <[v := with_efficiency view]> h).
Proof.
  intros Hv Hp Hi. unfold efficiency_calculation.
  rewrite (bind_run _ _ _ _ _
             (df_getitem_run _ _ _ _ _ Hv (getitem_column _ _ _ Hp))).
  rewrite (bind_run _ _ _ _ _
             (df_getitem_run _ _ _ _ _ Hv (getitem_column _ _ _ Hi))).
  rewrite (bind_run _ _ _ _ _ (lift_run _ _ _ (to_floats_column _ _ Hi))).
  rewrite (bind_run _ _ _ _ _ (lift_run _ _ _ (to_floats_column _ _ Hp))).
  apply (df_setitem_run _ _ _ _ _ _ Hv).
  rewrite efficiency_values. unfold setitem.
  rewrite length_map, Nat.eqb_refl. unfold with_efficiency.
  by rewrite zip_with_map_r.
Qed.

End Efficiency.

(** Dividing by a zero irradiance, in binary64. *)
Lemma division_by_zero_irradiance (p i : spec_float) :
  Binary64.iszero i = true ->
  let e := fdiv p (fmul i PANEL_AREA) in
  is_inf e || is_nan e = true.
Proof.
  destruct i as [s| | |]; try done. intros _.
  by destruct p.
Qed.

(** C2: after the efficiency calculation every row of the view has the
    column [Efficiency], equal to
    [Power_Output_W / (Solar_Irradiance_W/m2 * 1.6)] in binary64; the call
    does not raise, and where the irradiance is zero the value is an
    infinity or NaN. *)
Theorem efficiency_exact (h : gmap nat (@DataFrame spec_float)) v view :
  h !! v = Some view ->
  column_is is_number view "Power_Output_W" = true ->
  column_is is_number view "Solar_Irradiance_W/m2" = true ->
  exists view',
    efficiency_calculation v h = Ok (tt, <[v := view']> h)
    /\ PANEL_AREA = Binary64.one_point_six
    /\ "Efficiency" ∈ columns view'
    /\ index view' = index view
    /\ length (records view') = length (records view)
    /\ forall i r, records view !! i = Some r ->
         exists e,
           records view' !! i = Some (<["Efficiency" := CFloat e]> r)
           /\ e = fdiv (number (cell r "Power_Output_W"))
                       (fmul (number (cell r "Solar_Irradiance_W/m2"))
                             PANEL_AREA)
           /\ (Binary64.iszero (number (cell r "Solar_Irradiance_W/m2")) = true
               -> is_inf e || is_nan e = true).
Proof.
  intros Hv Hp Hi. exists (with_efficiency view).
  split; [by apply efficiency_calculation_run|]. split; [done|].
  split; [|split; [done|]; split].
  - unfold with_efficiency. simpl. case_bool_decide; [done|].
    apply elem_of_app. right. left.
  - unfold with_efficiency. simpl. by rewrite length_map.
  - intros i r Hr. exists (efficiency r).
    split; [|split; [done|]].
    + unfold with_efficiency. simpl. by rewrite lookup_map, Hr.
    + apply division_by_zero_irradiance.
Qed.

(** ** The four cards (lines 46-49) *)

Section Cards.
Context {F : Type} {float64 : Float64 F}.

Implicit Types (h : gmap nat (@DataFrame F)) (df : @DataFrame F).

Lemma aggregate_run h v view key (f : list F -> F) :
  h !! v = Some view ->
  column_is is_number view key = true ->
  aggregate v key f h = Ok (f (numbers view key), h).
Proof.
  intros Hv Hk. unfold aggregate.
  rewrite (bind_run _ _ _ _ _
             (df_getitem_run _ _ _ _ _ Hv (getitem_column _ _ _ Hk))).
  by rewrite (bind_run _ _ _ _ _ (lift_run _ _ _ (to_floats_column _ _ Hk))).
Qed.

Lemma kpi_cards_run h v view :
  h !! v = Some view ->
  column_is is_number view "Energy_Saved_kWh" = true ->
  column_is is_number view "CO2_Emissions_Saved_kg" = true ->
  column_is is_number view "Panel_Temperature_C" = true ->
  column_is is_number view "Power_Output_W" = true ->
  kpi_cards v h = Ok (cards view, h).
Proof.
  intros Hv He Hc Ht Hp. unfold kpi_cards.
  rewrite (bind_run _ _ _ _ _ (aggregate_run _ _ _ _ _ Hv He)).
  rewrite (bind_run _ _ _ _ _ (aggregate_run _ _ _ _ _ Hv Hc)).
  rewrite (bind_run _ _ _ _ _ (aggregate_run _ _ _ _ _ Hv Ht)).
  by rewrite (bind_run _ _ _ _ _ (aggregate_run _ _ _ _ _ Hv Hp)).
Qed.

Lemma column_is_no_rows p df key :
  records df = [] -> key ∈ columns df -> column_is p df key = true.
Proof. intros Hnil Hin. apply column_is_spec. by rewrite Hnil. Qed.

End Cards.

(** C4, as the code has it: on a view with no rows the four cards are
    computed without raising; the mean panel temperature and the maximal
    power are NaN, the two sums are 0.0 and not NaN. *)
Theorem kpi_cards_no_rows (h : gmap nat (@DataFrame spec_float)) v view :
  h !! v = Some view ->
  records view = [] ->
  "Energy_Saved_kWh" ∈ columns view ->
  "CO2_Emissions_Saved_kg" ∈ columns view ->
  "Panel_Temperature_C" ∈ columns view ->
  "Power_Output_W" ∈ columns view ->
  exists k,
    kpi_cards v h = Ok (k, h)
    /\ EnergySaved k = S754_zero false /\ is_nan (EnergySaved k) = false
    /\ CO2Saved k = S754_zero false /\ is_nan (CO2Saved k) = false
    /\ is_nan (AvgPanelTemp k) = true
    /\ is_nan (MaxPower k) = true.
Proof.
  intros Hv Hnil He Hc Ht Hp. exists (cards view).
  split.
  - apply kpi_cards_run; try done; by apply column_is_no_rows.
  - unfold cards, numbers. rewrite Hnil. done.
Qed.

(** ** Sums over views of one dataset (lines 46-47) *)

Section Monotone.
Context {F : Type} {float64 : Float64 F} {codec : DatetimeCodec}.

(** What the order and the addition are assumed to satisfy on numbers that
    are not below zero.  Exact arithmetic satisfies these laws, and so does
    an addition that rounds monotonically, such as the IEEE-754 one. *)
Hypothesis fle_zero : fle fzero fzero.
Hypothesis fle_trans : forall a b c : F, fle a b -> fle b c -> fle a c.
Hypothesis fadd_mono : forall a b c : F,
  fle fzero a -> fle a b -> fle fzero c -> fle (fadd a c) (fadd b c).
Hypothesis fadd_incr : forall a c : F,
  fle fzero a -> fle fzero c -> fle a (fadd a c).

Implicit Types (h : gmap nat (@DataFrame F)) (df : @DataFrame F).










End Monotone.

(** ** What the script writes to the heap *)

Section Frame.
Context {F : Type} {float64 : Float64 F} {codec : DatetimeCodec}.

Implicit Types (h : gmap nat (@DataFrame F)) (df : @DataFrame F).

Lemma bind_inv {A B} (m : M A) (k : A -> M B) h b h' :
  bind m k h = Ok (b, h') ->
  exists a h1, m h = Ok (a, h1) /\ k a h1 = Ok (b, h').
Proof.
  unfold bind. destruct (m h) as [[a h1]|]; [|done]. intros Hk.
  by exists a, h1.
Qed.

Lemma read_only_ret {A} (a : A) : read_only (@ret F A a).
Proof. intros h a' h' [= _ <-]. done. Qed.

Lemma read_only_lift {A} (r : result A) : read_only (@lift F A r).
Proof. intros h a h'. unfold lift. destruct r; [|done]. by intros [= _ <-]. Qed.

Lemma read_only_deref l : read_only (deref (F:=F) l).
Proof.
  intros h a h'. unfold deref. destruct (h !! l); [|done]. by intros [= _ <-].
Qed.

Lemma read_only_bind {A B} (m : @M F A) (k : A -> @M F B) :
  read_only m -> (forall a, read_only (k a)) -> read_only (bind m k).
Proof.
  intros Hm Hk h b h' Hrun.
  apply bind_inv in Hrun as (a & h1 & Hm' & Hk').
  apply Hm in Hm' as ->. by apply Hk in Hk'.
Qed.

Create HintDb read_only.
#[local] Hint Resolve read_only_ret read_only_lift read_only_deref : read_only.
#[local] Hint Extern 2 (read_only (bind _ _)) =>
  apply read_only_bind; [|intro] : read_only.

Lemma read_only_df_getitem l key : read_only (df_getitem (F:=F) l key).
Proof. unfold df_getitem. auto with read_only. Qed.
#[local] Hint Resolve read_only_df_getitem : read_only.

Lemma read_only_sidebar_filters d ps pe : read_only (sidebar_filters (F:=F) d ps pe).
Proof. unfold sidebar_filters. auto 20 with read_only. Qed.

Lemma read_only_kpi_cards v : read_only (kpi_cards (F:=F) v).
Proof. unfold kpi_cards, aggregate. auto 30 with read_only. Qed.

Lemma read_only_preview v : read_only (preview (F:=F) v).
Proof. unfold preview. auto with read_only. Qed.

Lemma read_only_visualizations v : read_only (visualizations (F:=F) v).
Proof. unfold visualizations, line_plot. auto 50 with read_only. Qed.

Lemma read_only_hourly_bar_chart v : read_only (hourly_bar_chart (F:=F) v).
Proof. unfold hourly_bar_chart. auto with read_only. Qed.

Lemma read_only_data_download v : read_only (data_download (F:=F) v).
Proof. unfold data_download. auto with read_only. Qed.

(** Boolean indexing allocates: the result is a new reference. *)
Lemma df_getitem_mask_inv l mask h v h' :
  df_getitem_mask l mask h = Ok (v, h') ->
  exists df view,
    h !! l = Some df /\ getitem_mask df mask = Ok view
    /\ v = fresh (dom h) /\ h' = <[v := view]> h.
Proof.
  unfold df_getitem_mask. intros Hrun.
  apply bind_inv in Hrun as (df & h1 & Hd & Hrun).
  apply bind_inv in Hrun as (view & h2 & Hm & Hrun).
  unfold deref in Hd. destruct (h !! l) as [df'|] eqn:Hl; [|done].
  injection Hd as <- <-.
  unfold lift in Hm. destruct (getitem_mask df' mask) as [view'|] eqn:Hg; [|done].
  injection Hm as <- <-.
  injection Hrun as <- <-. by exists df', view'.
Qed.

(** Column assignment writes to the frame it is applied to, and to no
    other. *)
Lemma df_setitem_inv l key values h u h' :
  df_setitem l key values h = Ok (u, h') ->
  exists df df',
    h !! l = Some df /\ setitem df key values = Ok df' /\ h' = <[l := df']> h.
Proof.
  unfold df_setitem. intros Hrun.
  apply bind_inv in Hrun as (df & h1 & Hd & Hrun).
  apply bind_inv in Hrun as (df' & h2 & Hs & Hrun).
  unfold deref in Hd. destruct (h !! l) as [df0|] eqn:Hl; [|done].
  injection Hd as <- <-.
  unfold lift in Hs. destruct (setitem df0 key values) as [df1|] eqn:Hg; [|done].
  injection Hs as <- <-.
  injection Hrun as <-. by exists df0, df1.
Qed.

Lemma time_filter_inv d start_time end_time h v h' :
  time_filter d start_time end_time h = Ok (v, h') ->
  exists df view,
    h !! d = Some df /\ v = fresh (dom h) /\ h' = <[v := view]> h.
Proof.
  unfold time_filter. intros Hrun.
  apply bind_inv in Hrun as (s1 & h1 & H1 & Hrun).
  apply read_only_df_getitem in H1 as ->.
  apply bind_inv in Hrun as (t1 & h1 & H1 & Hrun).
  apply read_only_lift in H1 as ->.
  apply bind_inv in Hrun as (s2 & h1 & H1 & Hrun).
  apply read_only_df_getitem in H1 as ->.
  apply bind_inv in Hrun as (t2 & h1 & H1 & Hrun).
  apply read_only_lift in H1 as ->.
  apply df_getitem_mask_inv in Hrun as (df & view & ? & _ & ? & ?).
  by exists df, view.
Qed.

Lemma efficiency_calculation_inv v h u h' :
  efficiency_calculation v h = Ok (u, h') ->
  exists view view',
    h !! v = Some view /\ h' = <[v := view']> h
    /\ "Efficiency" ∈ columns view'.
Proof.
  unfold efficiency_calculation. intros Hrun.
  apply bind_inv in Hrun as (s1 & h1 & H1 & Hrun).
  apply read_only_df_getitem in H1 as ->.
  apply bind_inv in Hrun as (s2 & h1 & H1 & Hrun).
  apply read_only_df_getitem in H1 as ->.
  apply bind_inv in Hrun as (t1 & h1 & H1 & Hrun).
  apply read_only_lift in H1 as ->.
  apply bind_inv in Hrun as (t2 & h1 & H1 & Hrun).
  apply read_only_lift in H1 as ->.
  apply df_setitem_inv in Hrun as (view & view' & Hv & Hset & ->).
  exists view, view'. split; [done|]. split; [done|].
  unfold setitem in Hset. destruct (Nat.eqb _ _); [|done].
  injection Hset as <-. simpl. case_bool_decide; [done|].
  apply elem_of_app. right. left.
Qed.

Lemma fault_analysis_inv v h report h' :
  fault_analysis v h = Ok (report, h') ->
  exists faults, h' = <[fresh (dom h) := faults]> h.
Proof.
  unfold fault_analysis. intros Hrun.
  apply bind_inv in Hrun as (s1 & h1 & H1 & Hrun).
  apply read_only_df_getitem in H1 as ->.
  apply bind_inv in Hrun as (f & h1 & H1 & Hrun).
  apply df_getitem_mask_inv in H1 as (df & faults & _ & _ & -> & ->).
  apply bind_inv in Hrun as (fr & h1 & H1 & Hrun).
  apply read_only_deref in H1 as ->.
  exists faults. destruct (negb (empty fr)); by injection Hrun as _ <-.
Qed.

(** C9: when the script below the loader returns, the frame of the loaded
    dataset is the one it was before; the filtered view is another object,
    and it is that object which has the column [Efficiency]. *)
Theorem dataset_not_mutated h d (picked_start picked_end : option Time)
    report h' :
  render d picked_start picked_end h = Ok (report, h') ->
  h' !! d = h !! d
  /\ is_Some (h !! d)
  /\ df_filtered_ref report <> d
  /\ h !! df_filtered_ref report = None
  /\ exists view,
       h' !! df_filtered_ref report = Some view
       /\ "Efficiency" ∈ columns view.
Proof.
  unfold render. intros Hrun.
  apply bind_inv in Hrun as (se & h1 & H1 & Hrun).
  apply read_only_sidebar_filters in H1 as ->.
  apply bind_inv in Hrun as (v & h1 & Hfilter & Hrun).
  apply time_filter_inv in Hfilter as (df & view & Hd & -> & ->).
  set (v := fresh (dom h)) in *.
  apply bind_inv in Hrun as (k & h1 & H1 & Hrun).
  apply read_only_kpi_cards in H1 as ->.
  apply bind_inv in Hrun as (u & h2 & Heff & Hrun).
  apply efficiency_calculation_inv in Heff as (view0 & view' & _ & -> & Hcol).
  apply bind_inv in Hrun as (hd & h1 & H1 & Hrun).
  apply read_only_preview in H1 as ->.
  apply bind_inv in Hrun as (cs & h1 & H1 & Hrun).
  apply read_only_visualizations in H1 as ->.
  apply bind_inv in Hrun as (ha & h1 & H1 & Hrun).
  apply read_only_hourly_bar_chart in H1 as ->.
  apply bind_inv in Hrun as (fa & h3 & Hfa & Hrun).
  apply fault_analysis_inv in Hfa as (faults & ->).
  apply bind_inv in Hrun as (out & h1 & H1 & Hrun).
  apply read_only_data_download in H1 as ->.
  injection Hrun as <- <-. simpl.
  rewrite insert_insert_eq.
  set (f := fresh (dom (<[v := view']> h))).
  assert (Hv : h !! v = None) by apply fresh_not_allocated.
  assert (Hf : (<[v := view']> h) !! f = None) by apply fresh_not_allocated.
  assert (v <> d) as Hvd by (intros ->; congruence).
  assert (f <> v) as Hfv.
  { intros Heq. rewrite Heq, lookup_insert_eq in Hf. done. }
  assert (f <> d) as Hfd.
  { intros Heq. rewrite Heq, lookup_insert_ne, Hd in Hf; done. }
  split; [by rewrite !lookup_insert_ne|].
  split; [by rewrite Hd|]. split; [done|]. split; [done|].
  exists view'. split; [|done].
  by rewrite lookup_insert_ne, lookup_insert_eq.
Qed.

End Frame.

(** ** Export and reload (lines 118-124 and 15-21) *)

Section RoundTrip.
Context {F : Type} {float64 : Float64 F} {codec : DatetimeCodec}.

Implicit Types (h : gmap nat (@DataFrame F)) (df : @DataFrame F)
  (r : gmap string (@Cell F)).

Lemma cell_insert r key key' (c : @Cell F) :
  cell (<[key' := c]> r) key = if decide (key' = key) then c else cell r key.
Proof. unfold cell. rewrite lookup_insert. by case_decide. Qed.










End RoundTrip.

Section Exporter.
Context {F : Type} {float64 : Float64 F} {codec : DatetimeCodec}.

Implicit Types (h : gmap nat (@DataFrame F)) (df : @DataFrame F)
  (r : gmap string (@Cell F)).

Lemma loaded_spec df :
  loaded df = true <->
  NoDup (columns df) /\ "Timestamp" ∈ columns df
  /\ "Hour" ∈ columns df /\ "Month" ∈ columns df
  /\ Forall (fun r =>
       derived r = true
       /\ Forall (fun k => k = "Timestamp" \/ is_datetime (cell r k) = false)
            (columns df)) (records df).
Proof.
  unfold loaded. rewrite !andb_true_iff, !bool_decide_eq_true, forallb_Forall.
  assert (Forall (fun r =>
            derived r
            && forallb (fun k => String.eqb k "Timestamp"
                                 || negb (is_datetime (cell r k))) (columns df)
            = true) (records df)
          <-> Forall (fun r =>
            derived r = true
            /\ Forall (fun k => k = "Timestamp" \/ is_datetime (cell r k) = false)
                 (columns df)) (records df)) as ->; [|tauto].
  apply Forall_iff. intros r.
  rewrite andb_true_iff, forallb_Forall.
  assert (Forall (fun k => String.eqb k "Timestamp"
                           || negb (is_datetime (cell r k)) = true) (columns df)
          <-> Forall (fun k => k = "Timestamp" \/ is_datetime (cell r k) = false)
                (columns df)) as ->; [|done].
  apply Forall_iff. intros k.
  by rewrite orb_true_iff, String.eqb_eq, negb_true_iff.
Qed.


Lemma cell_with_efficiency r key :
  key <> "Efficiency" ->
  cell (<["Efficiency" := CFloat (efficiency r)]> r) key = cell r key.
Proof. intros Hne. by rewrite cell_insert, decide_False. Qed.




End Exporter.


(** ** The whole script below the loader (lines 33-124) *)

Section Render.
Context {F : Type} {float64 : Float64 F} {codec : DatetimeCodec}.

Implicit Types (h : gmap nat (@DataFrame F)) (df : @DataFrame F).




Lemma columns_with_efficiency df key :
  key ∈ columns df -> key ∈ columns (with_efficiency df).
Proof.
  intros Hin. simpl. case_bool_decide; [done|]. apply elem_of_app. by left.
Qed.


Lemma column_is_with_efficiency (p : @Cell F -> bool) df key :
  key <> "Efficiency" ->
  column_is p df key = true ->
  column_is p (with_efficiency df) key = true.
Proof.
  intros Hne. rewrite !column_is_spec. intros [Hin Hall].
  split; [by apply columns_with_efficiency|]. simpl.
  apply Forall_forall. intros r' Hr'.
  apply list_elem_of_In, in_map_iff in Hr' as (r & <- & Hr).
  apply list_elem_of_In in Hr. eapply Forall_forall in Hall; [|exact Hr].
  simpl in Hall. by rewrite cell_with_efficiency.
Qed.

Lemma aligned_with_efficiency df :
  aligned df = true -> aligned (with_efficiency df) = true.
Proof. unfold aligned. simpl. by rewrite length_map. Qed.









End Render.

(** ** The loader (lines 15-21) *)

Section Loader.
Context {F : Type} {float64 : Float64 F} {codec : DatetimeCodec}.

Implicit Types (h : gmap nat (@DataFrame F)) (df : @DataFrame F)
  (r : gmap string (@Cell F)).






Lemma elem_of_added (cols : list string) key k :
  k ∈ (if bool_decide (key ∈ cols) then cols else cols ++ [key])
  <-> k ∈ cols \/ k = key.
Proof.
  case_bool_decide as Hin.
  - split; [by left|]. by intros [?| ->].
  - by rewrite elem_of_app, list_elem_of_singleton.
Qed.


Lemma parse_datetime_ok (c c' : @Cell F) :
  parse_datetime c = Ok c' -> exists t, c' = CDatetime t.
Proof.
  destruct c as [| |text|t]; simpl; try done.
  - destruct (strptime text) as [t|]; [|done]. intros [= <-]. by exists t.
  - intros [= <-]. by exists t.
Qed.



Lemma loaded_window_view df start_time end_time :
  loaded df = true -> loaded (window_view df start_time end_time) = true.
Proof.
  rewrite !loaded_spec. simpl. intros (? & ? & ? & ? & Hall).
  repeat (split; [done|]). by apply select_Forall.
Qed.

End Loader.

(** ** What the loader returns, and when it raises (lines 15-21) *)

Section LoaderRun.
Context {F : Type} {float64 : Float64 F} {codec : DatetimeCodec}.
Implicit Types (h : gmap nat (@DataFrame F)) (df fr : @DataFrame F)
  (r : gmap string (@Cell F)).

Lemma parses_spec (c : @Cell F) :
  parses c = true ->
  parse_datetime c
  = Ok (CDatetime (cell_timestamp (value_or NaN (parse_datetime c)))).
Proof.
  unfold parses. destruct (parse_datetime c) as [c'|] eqn:Hc; [|done].
  intros _. apply parse_datetime_ok in Hc as Hc'. destruct Hc' as [t ->].
  done.
Qed.

Lemma setitem_ok df key (values : list (@Cell F)) :
  length values = length (records df) ->
  setitem df key values
  = Ok {| columns := with_column key (columns df); index := index df;
          records := zip_with (fun r v => <[key := v]> r) (records df) values |}.
Proof.
  intros Hlen. unfold setitem. by rewrite Hlen, Nat.eqb_refl.
Qed.

Lemma load_data_run file h fr :
  read_csv file = Ok fr ->
  column_is parses fr "Timestamp" = true ->
  load_data file h
  = Ok (fresh (dom h), <[fresh (dom h) := load_frame fr]> h).
Proof.
  intros Hread Hts. apply column_is_spec in Hts as Hts'.
  destruct Hts' as [Hin Hall].
  set (l := fresh (dom h)). set (rs := records fr).
  set (ts := fun r : gmap string (@Cell F) =>
         cell_timestamp (value_or NaN (parse_datetime (cell r "Timestamp")))).
  set (rec1 := fun r => <["Timestamp" := CDatetime (ts r)]> r).
  set (rec2 := fun r => <["Hour" := CInt (Z.of_nat (hour (time (ts r))))]> (rec1 r)).
  unfold load_data.
  rewrite (bind_run _ _ _ _ _ (lift_run _ _ h Hread)).
  change (bind (new_frame fr) ?k h) with (k l (<[l := fr]> h)). cbv beta.
  assert (Hl0 : (<[l := fr]> h) !! l = Some fr) by apply lookup_insert_eq.
  rewrite (bind_run _ _ _ _ _
             (df_getitem_run _ _ _ _ _ Hl0 (getitem_column _ _ _ Hts))).
  assert (Hparse : to_datetime (map (fun r => cell r "Timestamp") rs)
                   = Ok (map (fun r => CDatetime (ts r)) rs)).
  { unfold to_datetime. apply traverse_map_on.
    eapply Forall_impl; [exact Hall|]. simpl. intros r Hr.
    by apply parses_spec. }
  rewrite (bind_run _ _ _ _ _ (lift_run _ _ _ Hparse)).
  set (frame1 := {| columns := columns fr; index := index fr;
                    records := map rec1 rs |}).
  assert (Hset0 : setitem fr "Timestamp" (map (fun r => CDatetime (ts r)) rs)
                  = Ok frame1).
  { rewrite setitem_ok by (by rewrite !length_map).
    unfold with_column. rewrite bool_decide_eq_true_2 by done.
    fold rs. by rewrite zip_with_map_r. }
  rewrite (bind_run _ _ _ _ _ (df_setitem_run _ _ _ _ _ _ Hl0 Hset0)).
  rewrite insert_insert_eq.
  assert (Hl1 : (<[l := frame1]> h) !! l = Some frame1)
    by apply lookup_insert_eq.
  assert (Hget1 : getitem frame1 "Timestamp"
                  = Ok (map (fun r => CDatetime (ts r)) rs)).
  { unfold getitem. simpl. rewrite bool_decide_eq_true_2 by done.
    rewrite map_map. f_equal. apply map_ext. intros r. unfold rec1.
    by rewrite cell_insert, decide_True. }
  rewrite (bind_run _ _ _ _ _ (df_getitem_run _ _ _ _ _ Hl1 Hget1)).
  assert (Hhours : dt_hour (map (fun r => @CDatetime F (ts r)) rs)
                   = Ok (map (fun r => CInt (Z.of_nat (hour (time (ts r))))) rs)).
  { unfold dt_hour. apply traverse_map_on. by apply Forall_forall. }
  rewrite (bind_run _ _ _ _ _ (lift_run _ _ _ Hhours)).
  set (frame2 := {| columns := with_column "Hour" (columns fr);
                    index := index fr; records := map rec2 rs |}).
  assert (Hset1 : setitem frame1 "Hour"
                    (map (fun r => CInt (Z.of_nat (hour (time (ts r))))) rs)
                  = Ok frame2).
  { rewrite setitem_ok by (simpl; by rewrite !length_map).
    simpl. by rewrite zip_with_map_same. }
  rewrite (bind_run _ _ _ _ _ (df_setitem_run _ _ _ _ _ _ Hl1 Hset1)).
  rewrite insert_insert_eq.
  assert (Hl2 : (<[l := frame2]> h) !! l = Some frame2)
    by apply lookup_insert_eq.
  assert (Hget2 : getitem frame2 "Timestamp"
                  = Ok (map (fun r => CDatetime (ts r)) rs)).
  { unfold getitem. simpl. rewrite bool_decide_eq_true_2.
    - rewrite map_map. f_equal. apply map_ext. intros r. unfold rec2, rec1.
      rewrite cell_insert, decide_False by done.
      by rewrite cell_insert, decide_True.
    - unfold with_column. case_bool_decide; [done|].
      apply elem_of_app. by left. }
  rewrite (bind_run _ _ _ _ _ (df_getitem_run _ _ _ _ _ Hl2 Hget2)).
  assert (Hmonths : dt_month (map (fun r => @CDatetime F (ts r)) rs)
                    = Ok (map (fun r => CInt (Z.of_nat (month (ts r)))) rs)).
  { unfold dt_month. apply traverse_map_on. by apply Forall_forall. }
  rewrite (bind_run _ _ _ _ _ (lift_run _ _ _ Hmonths)).
  assert (Hset2 : setitem frame2 "Month"
                    (map (fun r => CInt (Z.of_nat (month (ts r)))) rs)
                  = Ok (load_frame fr)).
  { rewrite setitem_ok by (simpl; by rewrite !length_map).
    simpl. by rewrite zip_with_map_same. }
  rewrite (bind_run _ _ _ _ _ (df_setitem_run _ _ _ _ _ _ Hl2 Hset2)).
  by rewrite insert_insert_eq.
Qed.

End LoaderRun.

Section LoaderErrors.
Context {F : Type} {float64 : Float64 F} {codec : DatetimeCodec}.
Implicit Types (h : gmap nat (@DataFrame F)) (df fr : @DataFrame F)
  (r : gmap string (@Cell F)).

Lemma read_csv_inv (file : Csv) fr :
  read_csv file = Ok fr ->
  NoDup (header file)
  /\ fr = {| columns := header file;
             index := seq 0 (length (lines file));
             records := map (fun l => list_to_map
                                (zip (header file) (map cell_of_field l)))
                          (lines file) |}.
Proof.
  unfold read_csv. case_bool_decide as Hnd; [|done]. simpl.
  destruct (forallb _ _); [|done]. by intros [= <-].
Qed.

Lemma traverse_raise {A B} (f : A -> result B) (e : exn) (xs : list A) :
  Forall (fun x => (exists y, f x = Ok y) \/ f x = Raise e) xs ->
  Exists (fun x => f x = Raise e) xs ->
  traverse f xs = Raise e.
Proof.
  induction 1 as [|x xs Hx Hall IH]; intros Hex.
  - by apply Exists_nil in Hex.
  - simpl. destruct Hx as [[y Hy]| ->]; [|done]. rewrite Hy. simpl.
    apply Exists_cons in Hex as [Hex|Hex]; [congruence|].
    by rewrite (IH Hex).
Qed.


Lemma with_column_elem_of key k (cols : list string) :
  k ∈ with_column key cols <-> k ∈ cols \/ k = key.
Proof. apply elem_of_added. Qed.

Lemma columns_load_frame fr key :
  key ∈ columns (load_frame fr)
  <-> key ∈ columns fr \/ key = "Hour" \/ key = "Month".
Proof. simpl. rewrite !with_column_elem_of. tauto. Qed.





(** X4: a table without a [Timestamp] column: line 18 raises [KeyError]. *)
Theorem load_data_no_timestamp (file : Csv) h fr :
  read_csv file = Ok fr ->
  "Timestamp" ∉ header file ->
  load_data file h = Raise (KeyError "Timestamp").
Proof.
  intros Hread Hno. apply read_csv_inv in Hread as Hinv.
  destruct Hinv as [_ Hfr].
  unfold load_data.
  rewrite (bind_run _ _ _ _ _ (lift_run _ _ h Hread)).
  set (l := fresh (dom h)).
  change (bind (new_frame fr) ?k h) with (k l (<[l := fr]> h)). cbv beta.
  unfold bind at 1. unfold df_getitem.
  rewrite (bind_run _ _ _ _ _ (deref_run _ _ _ (lookup_insert_eq h l fr))).
  unfold getitem. rewrite bool_decide_eq_false_2; [done|].
  by rewrite Hfr.
Qed.

(** X5: a [Timestamp] column of text, one of which is no date-time: line 18
    raises [ValueError]. *)
Theorem load_data_unparsed_timestamp (file : Csv) h fr :
  read_csv file = Ok fr ->
  column_is is_text fr "Timestamp" = true ->
  column_is parses fr "Timestamp" = false ->
  load_data file h = Raise ValueError.
Proof.
  intros Hread Htext Hno.
  apply column_is_spec in Htext as Htext'. destruct Htext' as [Hin Hall].
  assert (Hex : Exists (fun r => parses (cell r "Timestamp") = false)
                  (records fr)).
  { unfold column_is in Hno. rewrite bool_decide_eq_true_2 in Hno by done.
    simpl in Hno. apply Exists_exists.
    destruct (forallb _ _) eqn:Hfa in Hno; [done|].
    assert (~ Forall (fun r => parses (cell r "Timestamp") = true) (records fr))
      as Hnall.
    { intros Hfa'. apply forallb_Forall in Hfa'. congruence. }
    apply not_Forall_Exists in Hnall; [|intros r; apply _].
    apply Exists_exists in Hnall as (r & Hr & Hp).
    exists r. split; [done|]. by apply not_true_is_false. }
  unfold load_data.
  rewrite (bind_run _ _ _ _ _ (lift_run _ _ h Hread)).
  set (l := fresh (dom h)).
  change (bind (new_frame fr) ?k h) with (k l (<[l := fr]> h)). cbv beta.
  rewrite (bind_run _ _ _ _ _
             (df_getitem_run _ _ _ _ _ (lookup_insert_eq h l fr)
                (getitem_column _ _ _ Htext))).
  unfold bind at 1. unfold lift, to_datetime.
  rewrite (traverse_raise _ ValueError); [done| |].
  - rewrite Forall_map. eapply Forall_impl; [exact Hall|]. simpl.
    intros r Hr. destruct (cell r "Timestamp") as [| |text|]; try done.
    simpl. destruct (strptime text); eauto.
  - rewrite Exists_map. apply Exists_exists.
    apply Exists_exists in Hex as (r & Hr & Hp). exists r. split; [done|].
    eapply Forall_forall in Hall; [|exact Hr]. simpl in *.
    unfold parses in Hp.
    destruct (cell r "Timestamp") as [| |text|]; try done.
    simpl in *. by destruct (strptime text).
Qed.

End LoaderErrors.

(** ** The whole script (lines 13-124) *)

Section Dashboard.
Context {F : Type} {float64 : Float64 F} {codec : DatetimeCodec}.
Implicit Types (h : gmap nat (@DataFrame F)) (df fr : @DataFrame F)
  (r : gmap string (@Cell F)).

Lemma sidebar_filters_no_rows h d df picked_start picked_end :
  h !! d = Some df -> "Timestamp" ∈ columns df -> records df = [] ->
  sidebar_filters d picked_start picked_end h = Raise ValueError.
Proof.
  intros Hd Hin Hnil. unfold sidebar_filters.
  assert (Hget : getitem df "Timestamp" = Ok []).
  { unfold getitem. by rewrite bool_decide_eq_true_2, Hnil. }
  rewrite (bind_run _ _ _ _ _ (df_getitem_run _ _ _ _ _ Hd Hget)).
  done.
Qed.

(** X7: a file with a header and no line below it: the loader returns a frame
    without rows, the earliest timestamp of no rows is NaT, and asking for
    its time at line 33 raises [ValueError]. *)
Theorem dashboard_no_data_line (file : Csv) h fr
    (picked_start picked_end : option Time) :
  read_csv file = Ok fr ->
  "Timestamp" ∈ header file ->
  lines file = [] ->
  dashboard (Some file) picked_start picked_end h = Raise ValueError.
Proof.
  intros Hread Hin Hnil. apply read_csv_inv in Hread as Hinv.
  destruct Hinv as [_ Hfr].
  assert (Hrec : records fr = []) by (by rewrite Hfr, Hnil).
  assert (Hcol : "Timestamp" ∈ columns fr) by (by rewrite Hfr).
  unfold dashboard.
  rewrite (bind_run _ _ _ _ _
             (load_data_run file h fr Hread
                (column_is_no_rows _ _ _ Hrec Hcol))).
  unfold bind at 1. unfold render.
  unfold bind at 1.
  rewrite (sidebar_filters_no_rows _ _ (load_frame fr)); try done.
  - apply lookup_insert_eq.
  - apply columns_load_frame. by left.
  - simpl. by rewrite Hrec.
Qed.


End Dashboard.

(** ** The order on times of day *)

Lemma time_le_refl a : time_le a a = true.
Proof.
  unfold time_le, time_cmp. by rewrite !Nat.compare_refl.
Qed.

Lemma time_le_total a b : time_le a b = false -> time_le b a = true.
Proof.
  unfold time_le. rewrite (time_cmp_opp a b). by destruct (time_cmp a b).
Qed.

Lemma lex_eq c1 c2 : lex c1 c2 = Eq -> c1 = Eq /\ c2 = Eq.
Proof. by destruct c1. Qed.

Lemma time_cmp_eq a b : time_cmp a b = Eq -> a = b.
Proof.
  unfold time_cmp. intros H.
  apply lex_eq in H as [H1 H]. apply lex_eq in H as [H2 H].
  apply lex_eq in H as [H3 H4].
  apply Nat.compare_eq in H1, H2, H3, H4.
  destruct a, b. simpl in *. by subst.
Qed.

Lemma time_le_antisym a b :
  time_le a b = true -> time_le b a = true -> a = b.
Proof.
  unfold time_le. rewrite (time_cmp_opp a b).
  destruct (time_cmp a b) eqn:Hc; try done.
  intros _ _. by apply time_cmp_eq.
Qed.

Lemma time_le_later s1 s2 t :
  time_le (time_later s1 s2) t = time_le s1 t && time_le s2 t.
Proof.
  unfold time_later. destruct (time_le s1 s2) eqn:H12.
  - destruct (time_le s2 t) eqn:H2; [|by rewrite andb_false_r].
    by rewrite (time_le_trans _ _ _ H12 H2).
  - apply time_le_total in H12.
    destruct (time_le s1 t) eqn:H1; [|done].
    by rewrite (time_le_trans _ _ _ H12 H1).
Qed.

Lemma time_le_earlier e1 e2 t :
  time_le t (time_earlier e1 e2) = time_le t e1 && time_le t e2.
Proof.
  unfold time_earlier. destruct (time_le e1 e2) eqn:H12.
  - destruct (time_le t e1) eqn:H1; [|done].
    by rewrite (time_le_trans _ _ _ H1 H12).
  - apply time_le_total in H12.
    destruct (time_le t e2) eqn:H2; [|by rewrite andb_false_r].
    by rewrite (time_le_trans _ _ _ H2 H12).
Qed.

Lemma filter_filter_andb {A} (p q : A -> bool) (xs : list A) :
  List.filter q (List.filter p xs) = List.filter (fun x => p x && q x) xs.
Proof.
  induction xs as [|x xs IH]; [done|]. simpl.
  destruct (p x); simpl; [|done]. destruct (q x); by rewrite IH.
Qed.


Section Windows.
Context {F : Type} {float64 : Float64 F} {codec : DatetimeCodec}.
Implicit Types (h : gmap nat (@DataFrame F)) (df : @DataFrame F)
  (r : gmap string (@Cell F)).

Lemma within_both s1 e1 s2 e2 r :
  within s1 e1 r && within s2 e2 r
  = within (time_later s1 s2) (time_earlier e1 e2) r.
Proof.
  unfold within. destruct (time_of_day r) as [t|]; [|done].
  rewrite time_le_later, time_le_earlier.
  destruct (time_le s1 t), (time_le s2 t), (time_le t e1), (time_le t e2);
    done.
Qed.

Lemma within_instant t r : within t t r = at_time t r.
Proof.
  unfold within, at_time. destruct (time_of_day r) as [t'|].
  - case_bool_decide as Heq.
    + injection Heq as ->. by rewrite time_le_refl.
    + destruct (time_le t t') eqn:H1, (time_le t' t) eqn:H2; try done.
      destruct Heq. f_equal. by apply time_le_antisym.
  - by rewrite bool_decide_eq_false_2.
Qed.

(** A frame is its columns and its rows. *)
Lemma frame_eq df1 df2 :
  aligned df1 = true -> aligned df2 = true ->
  columns df1 = columns df2 -> rows df1 = rows df2 -> df1 = df2.
Proof.
  unfold aligned, rows. intros H1%Nat.eqb_eq H2%Nat.eqb_eq Hc Hr.
  destruct df1 as [c1 i1 r1], df2 as [c2 i2 r2]. simpl in *.
  assert (i1 = i2).
  { rewrite <- (fst_zip i1 r1), <- (fst_zip i2 r2) by lia. by rewrite Hr. }
  assert (r1 = r2).
  { rewrite <- (snd_zip i1 r1), <- (snd_zip i2 r2) by lia. by rewrite Hr. }
  by subst.
Qed.

Lemma window_view_twice df s1 e1 s2 e2 :
  aligned df = true ->
  window_view (window_view df s1 e1) s2 e2
  = window_view df (time_later s1 s2) (time_earlier e1 e2).
Proof.
  intros Hal. apply frame_eq.
  - by do 2 apply aligned_window_view.
  - by apply aligned_window_view.
  - done.
  - rewrite !rows_window_view by (try apply aligned_window_view; done).
    rewrite filter_filter_andb. apply filter_ext. intros [i r]. simpl.
    apply within_both.
Qed.

(** X10: filtering the view of one window by a second window gives the view
    of the window they share, from the later start to the earlier end.
    Both runs return, each with a new frame, and the two windows taken
    in the other order give the same frame. *)
Theorem time_filter_twice h d df (s1 e1 s2 e2 : Time) :
  h !! d = Some df ->
  aligned df = true ->
  column_is is_datetime df "Timestamp" = true ->
  exists v h1 w h2 v' h1' w' h2',
    time_filter d s1 e1 h = Ok (v, h1)
    /\ time_filter v s2 e2 h1 = Ok (w, h2)
    /\ h2 !! w
       = Some (window_view df (time_later s1 s2) (time_earlier e1 e2))
    /\ time_filter d s2 e2 h = Ok (v', h1')
    /\ time_filter v' s1 e1 h1' = Ok (w', h2')
    /\ h2' !! w' = h2 !! w.
Proof.
  intros Hd Hal Hts.
  pose proof (time_filter_run h d df s1 e1 Hd Hts) as Hrun1.
  pose proof (time_filter_run h d df s2 e2 Hd Hts) as Hrun1'.
  set (v := fresh (dom h)) in *.
  set (h1 := <[v := window_view df s1 e1]> h) in *.
  set (h1' := <[v := window_view df s2 e2]> h) in *.
  assert (Hv : h1 !! v = Some (window_view df s1 e1))
    by apply lookup_insert_eq.
  assert (Hv' : h1' !! v = Some (window_view df s2 e2))
    by apply lookup_insert_eq.
  pose proof (time_filter_run h1 v _ s2 e2 Hv
                (column_is_window_view _ _ _ s1 e1 Hts)) as Hrun2.
  pose proof (time_filter_run h1' v _ s1 e1 Hv'
                (column_is_window_view _ _ _ s2 e2 Hts)) as Hrun2'.
  eexists _, _, _, _, _, _, _, _.
  split; [exact Hrun1|]. split; [exact Hrun2|].
  split; [rewrite lookup_insert_eq; f_equal; by apply window_view_twice|].
  split; [exact Hrun1'|]. split; [exact Hrun2'|].
  rewrite !lookup_insert_eq. f_equal.
  rewrite !window_view_twice by done. apply frame_eq.
  - by apply aligned_window_view.
  - by apply aligned_window_view.
  - done.
  - rewrite !rows_window_view by done. apply filter_ext. intros [i r].
    simpl. rewrite <- !within_both. apply andb_comm.
Qed.

(** X11: both bounds of the window are included: a window from [t] to [t]
    keeps exactly the rows whose time of day is [t]. *)
Theorem time_filter_instant h d df (t : Time) :
  h !! d = Some df ->
  aligned df = true ->
  column_is is_datetime df "Timestamp" = true ->
  exists v h' view,
    time_filter d t t h = Ok (v, h')
    /\ h' !! v = Some view
    /\ rows view = List.filter (fun ir => at_time t ir.2) (rows df).
Proof.
  intros Hd Hal Hts. eexists _, _, _.
  split; [exact (time_filter_run h d df t t Hd Hts)|].
  split; [apply lookup_insert_eq|].
  rewrite rows_window_view by done. apply filter_ext. intros [i r]. simpl.
  apply within_instant.
Qed.

(** ** The default window *)








End Windows.


Section DefaultWindow.
Context {F : Type} {float64 : Float64 F} {codec : DatetimeCodec}.
Implicit Types (h : gmap nat (@DataFrame F)) (df : @DataFrame F)
  (r : gmap string (@Cell F)).



End DefaultWindow.

(** ** The cards (lines 46-49) *)

Section CardsOrder.
Context {F : Type} {float64 : Float64 F} {codec : DatetimeCodec}.
Implicit Types (h : gmap nat (@DataFrame F)) (df : @DataFrame F).

Lemma numbers_with_efficiency df key :
  key <> "Efficiency" -> numbers (with_efficiency df) key = numbers df key.
Proof.
  intros Hne. unfold numbers. simpl. rewrite map_map. apply map_ext.
  intros r. by rewrite cell_with_efficiency.
Qed.

(** X12: the cards do not depend on the place of lines 46-49 before line 55:
    computed after the [Efficiency] column is set, they are the same. *)
Theorem kpi_cards_after_efficiency h v view :
  h !! v = Some view ->
  column_is is_number view "Energy_Saved_kWh" = true ->
  column_is is_number view "CO2_Emissions_Saved_kg" = true ->
  column_is is_number view "Panel_Temperature_C" = true ->
  column_is is_number view "Power_Output_W" = true ->
  column_is is_number view "Solar_Irradiance_W/m2" = true ->
  exists k h',
    kpi_cards v h = Ok (k, h)
    /\ efficiency_calculation v h = Ok (tt, h')
    /\ kpi_cards v h' = Ok (k, h').
Proof.
  intros Hv He Hc Ht Hp Hi. eexists _, _.
  split; [exact (kpi_cards_run h v view Hv He Hc Ht Hp)|].
  split; [exact (efficiency_calculation_run h v view Hv Hp Hi)|].
  rewrite (kpi_cards_run _ v (with_efficiency view)
             (lookup_insert_eq h v _)
             (column_is_with_efficiency _ _ "Energy_Saved_kWh" ltac:(done) He)
             (column_is_with_efficiency _ _ "CO2_Emissions_Saved_kg"
                ltac:(done) Hc)
             (column_is_with_efficiency _ _ "Panel_Temperature_C"
                ltac:(done) Ht)
             (column_is_with_efficiency _ _ "Power_Output_W" ltac:(done) Hp)).
  unfold cards. by rewrite !numbers_with_efficiency.
Qed.

End CardsOrder.

Section Maximum.
Context {F : Type} {float64 : Float64 F} {codec : DatetimeCodec}.

(** What the order is assumed to satisfy on numbers: it is transitive,
    and any two numbers that are not NaN compare.  Exact arithmetic
    satisfies these laws, and so does the IEEE-754 order. *)
Hypothesis fle_trans : forall a b c : F, fle a b -> fle b c -> fle a c.
Hypothesis fle_total : forall a b : F,
  is_nan a = false -> is_nan b = false -> fle a b \/ fle b a.

Implicit Types (h : gmap nat (@DataFrame F)) (df : @DataFrame F).

Lemma fle_refl (a : F) : is_nan a = false -> fle a a.
Proof. intros Ha. by destruct (fle_total a a Ha Ha). Qed.

Lemma fmax_cases (a b : F) :
  is_nan a = false -> is_nan b = false ->
  (fmax a b = a \/ fmax a b = b) /\ fle a (fmax a b) /\ fle b (fmax a b).
Proof.
  intros Ha Hb. unfold fmax. destruct (fleb a b) eqn:Hab.
  - split; [by right|]. split; [done | by apply fle_refl].
  - split; [by left|]. split; [by apply fle_refl|].
    destruct (fle_total a b Ha Hb) as [Hle|Hle]; [|done].
    unfold fle in Hle. congruence.
Qed.

Lemma fold_fmax (ys : list F) (y : F) :
  is_nan y = false -> Forall (fun x => is_nan x = false) ys ->
  let m := fold_left fmax ys y in
  m ∈ y :: ys /\ is_nan m = false /\ fle y m /\ Forall (fun x => fle x m) ys.
Proof.
  intros Hy Hall. revert y Hy.
  induction Hall as [|b ys Hb _ IH]; intros y Hy; simpl.
  - split; [left|]. split; [done|]. split; [by apply fle_refl | constructor].
  - destruct (fmax_cases y b Hy Hb) as (Hcase & Hyb & Hbb).
    assert (Hn : is_nan (fmax y b) = false)
      by (destruct Hcase as [-> | ->]; done).
    destruct (IH _ Hn) as (Hin & Hm & Hle & Hrest).
    split.
    { apply elem_of_cons in Hin as [Heq|Hin].
      - rewrite Heq. destruct Hcase as [-> | ->]; [left | right; left].
      - do 2 right. done. }
    split; [done|]. split; [by eapply fle_trans|].
    constructor; [by eapply fle_trans | done].
Qed.

Lemma dropna_not_nan (xs : list F) :
  Forall (fun x => is_nan x = false) (dropna xs).
Proof.
  apply Forall_forall. intros x Hx. unfold dropna in Hx.
  apply list_elem_of_In, filter_In in Hx as [_ Hx].
  by apply negb_true_iff in Hx.
Qed.

(** X13: the fourth card (line 49): when the view has a power reading that is
    not NaN, [MaxPower] is one of the readings and none of them is above
    it; when it has none, [MaxPower] is NaN. *)
Theorem max_power_is_maximum h v view :
  h !! v = Some view ->
  column_is is_number view "Energy_Saved_kWh" = true ->
  column_is is_number view "CO2_Emissions_Saved_kg" = true ->
  column_is is_number view "Panel_Temperature_C" = true ->
  column_is is_number view "Power_Output_W" = true ->
  exists k,
    kpi_cards v h = Ok (k, h)
    /\ forall readings,
         readings = dropna (numbers view "Power_Output_W") ->
         (readings = [] -> MaxPower k = fnan)
         /\ (readings <> [] ->
             MaxPower k ∈ readings
             /\ Forall (fun x => fle x (MaxPower k)) readings).
Proof.
  intros Hv He Hc Ht Hp. eexists.
  split; [exact (kpi_cards_run h v view Hv He Hc Ht Hp)|].
  intros ? ->. simpl. unfold series_max.
  pose proof (dropna_not_nan (numbers view "Power_Output_W")) as Hnn.
  destruct (dropna (numbers view "Power_Output_W")) as [|y ys]; [done|].
  split; [done|]. intros _.
  apply Forall_cons in Hnn as [Hy Hys].
  destruct (fold_fmax ys y Hy Hys) as (Hin & _ & Hle & Hrest).
  split; [done|]. by constructor.
Qed.

End Maximum.

(** ** A missing column *)

Section Missing.
Context {F : Type} {float64 : Float64 F} {codec : DatetimeCodec}.
Implicit Types (h : gmap nat (@DataFrame F)) (df : @DataFrame F).








End Missing.

(** ** The properties on the sample dataset *)

Section SampleFacts.
Context {F : Type} {float64 : Float64 F}.

Lemma sample_heap_0 : sample_heap (F := F) !! 0 = Some sample_df.
Proof.
  unfold sample_df.
  assert (is_Some (sample_heap (F := F) !! 0)) as [df ->]
    by (apply (bool_decide_unpack _); vm_compute; exact I).
  done.
Qed.

Lemma sample_filtered_1 start_time end_time :
  sample_filtered (F := F) start_time end_time !! 1
  = Some (sample_view start_time end_time).
Proof.
  unfold sample_view, sample_filtered.
  rewrite (time_filter_run sample_heap 0 sample_df _ _ sample_heap_0)
    by by_computation.
  assert (fresh (dom (sample_heap (F := F))) = 1) as -> by by_computation.
  by rewrite lookup_insert_eq.
Qed.

End SampleFacts.

Lemma time_filter_exact_witness :
  exists view,
    time_filter (F := spec_float) 0 (mkTime 10 0 0 0) (mkTime 10 30 0 0)
      sample_heap
    = Ok (fresh (dom sample_heap), <[fresh (dom sample_heap) := view]> sample_heap)
    /\ map fst (rows view) = [1; 2].
Proof.
  destruct (time_filter_exact (F := spec_float) sample_heap 0 sample_df
              (mkTime 10 0 0 0) (mkTime 10 30 0 0))
    as (view & Hrun & _ & _ & _ & Hrows);
    [exact sample_heap_0 | by_computation ..|].
  exists view. split; [exact Hrun|]. rewrite Hrows. by_computation.
Defined.

Lemma time_filter_reversed_window_witness :
  exists view,
    time_filter (F := spec_float) 0 (mkTime 11 0 0 0) (mkTime 10 0 0 0)
      sample_heap
    = Ok (fresh (dom sample_heap), <[fresh (dom sample_heap) := view]> sample_heap)
    /\ records view = [].
Proof.
  destruct (time_filter_reversed_window (F := spec_float) sample_heap 0
              sample_df (mkTime 11 0 0 0) (mkTime 10 0 0 0))
    as (view & Hrun & _ & _ & Hrecords);
    [exact sample_heap_0 | by_computation ..|].
  exists view. split; [exact Hrun | exact Hrecords].
Defined.

Lemma time_filter_idempotent_witness :
  exists v1 h1 v2 h2 view,
    time_filter (F := spec_float) 0 (mkTime 10 0 0 0) (mkTime 10 30 0 0)
      sample_heap = Ok (v1, h1)
    /\ time_filter v1 (mkTime 10 0 0 0) (mkTime 10 30 0 0) h1 = Ok (v2, h2)
    /\ h1 !! v1 = Some view
    /\ h2 !! v2 = Some view.
Proof.
  apply (time_filter_idempotent (F := spec_float) sample_heap 0 sample_df);
    [exact sample_heap_0 | by_computation ..].
Defined.

(** The statuses of the view from 10:00 to 10:40 are [No Fault],
    [No Fault] and [Overheat]: the warning is given, and the fault table
    has the one row of label 3. *)
Lemma fault_analysis_exact_witness :
  exists report faults,
    fault_analysis (F := spec_float) 1
      (sample_filtered (mkTime 10 0 0 0) (mkTime 10 40 0 0))
    = Ok (report,
          <[fresh (dom (sample_filtered (mkTime 10 0 0 0) (mkTime 10 40 0 0)))
              := faults]>
            (sample_filtered (mkTime 10 0 0 0) (mkTime 10 40 0 0)))
    /\ map (fun r => cell r "Fault_Status")
         (records (sample_view (mkTime 10 0 0 0) (mkTime 10 40 0 0)))
       = [CStr "No Fault"; CStr "No Fault"; CStr "Overheat"]
    /\ report = Warning faults
    /\ map fst (rows faults) = [3].
Proof.
  set (view := sample_view (F := spec_float) (mkTime 10 0 0 0) (mkTime 10 40 0 0)).
  destruct (fault_analysis_exact (F := spec_float)
              (sample_filtered (mkTime 10 0 0 0) (mkTime 10 40 0 0)) 1 view)
    as (report & faults & Hrun & _ & _ & _ & Hrows & Hwarn & _);
    [apply sample_filtered_1 | by_computation ..|].
  exists report, faults. split; [exact Hrun|].
  split; [by_computation|]. split.
  - apply Hwarn.
    assert (existsb (fun ir => faulty ir.2) (rows view) = true) as Hex
      by by_computation.
    apply existsb_exists in Hex as ([i r] & Hin & Hf).
    exists i, r. split; [by apply list_elem_of_In | by apply faulty_spec].
  - rewrite Hrows. by_computation.
Defined.


(** The power 160 at the irradiance 100 has the efficiency 1; at the
    irradiance 0 the efficiency is an infinity. *)
Lemma efficiency_exact_witness :
  exists view',
    efficiency_calculation (F := spec_float) 0 sample_heap
    = Ok (tt, <[0 := view']> sample_heap)
    /\ map (fun r => cell r "Efficiency") (records view')
       = [CFloat (Binary64.of_Z 1);
          CFloat (S754_finite false 5629499534213120 (-52));
          CFloat (S754_infinity false);
          CFloat (S754_finite false 5277655813324800 (-51))].
Proof.
  destruct (efficiency_exact sample_heap 0 sample_df)
    as (view' & Hrun & _); [exact sample_heap_0 | by_computation ..|].
  exists view'. split; [exact Hrun|].
  assert (Hc : match efficiency_calculation (F := spec_float) 0 sample_heap with
               | Ok (_, h') =>
                   map (fun r => cell r "Efficiency")
                     (records (default sample_df (h' !! 0)))
                   = [CFloat (Binary64.of_Z 1);
                      CFloat (S754_finite false 5629499534213120 (-52));
                      CFloat (S754_infinity false);
                      CFloat (S754_finite false 5277655813324800 (-51))]
               | Raise _ => False
               end) by by_computation.
  rewrite Hrun, lookup_insert_eq in Hc. exact Hc.
Defined.

Lemma kpi_cards_no_rows_witness :
  exists k,
    kpi_cards (F := spec_float) 1
      (sample_filtered (mkTime 11 0 0 0) (mkTime 10 0 0 0))
    = Ok (k, sample_filtered (mkTime 11 0 0 0) (mkTime 10 0 0 0))
    /\ is_nan (EnergySaved k) = false
    /\ is_nan (CO2Saved k) = false
    /\ is_nan (AvgPanelTemp k) = true
    /\ is_nan (MaxPower k) = true.
Proof.
  destruct (kpi_cards_no_rows
              (sample_filtered (mkTime 11 0 0 0) (mkTime 10 0 0 0)) 1
              (sample_view (mkTime 11 0 0 0) (mkTime 10 0 0 0)))
    as (k & Hrun & _ & He & _ & Hc & Ht & Hp);
    [apply sample_filtered_1 | by_computation ..|].
  exists k. split; [exact Hrun|]. repeat split; assumption.
Defined.

(** Against C4 as stated: on the view with no rows the energy and the CO2
    cards are the number 0.0, not NaN. *)
Lemma kpi_sums_of_no_rows_are_zero :
  exists k h',
    records (sample_view (F := spec_float) (mkTime 11 0 0 0) (mkTime 10 0 0 0))
    = []
    /\ kpi_cards (F := spec_float) 1
         (sample_filtered (mkTime 11 0 0 0) (mkTime 10 0 0 0)) = Ok (k, h')
    /\ EnergySaved k = S754_zero false
    /\ CO2Saved k = S754_zero false
    /\ is_nan (EnergySaved k) = false
    /\ is_nan (CO2Saved k) = false.
Proof.
  destruct (kpi_cards (F := spec_float) 1
              (sample_filtered (mkTime 11 0 0 0) (mkTime 10 0 0 0)))
    as [[k h']|e] eqn:Hrun.
  - exists k, h'. split; [by_computation|]. split; [reflexivity|].
    assert (Hc : match kpi_cards (F := spec_float) 1
                         (sample_filtered (mkTime 11 0 0 0) (mkTime 10 0 0 0)) with
                 | Ok (k, _) =>
                     EnergySaved k = S754_zero false
                     /\ CO2Saved k = S754_zero false
                 | Raise _ => False
                 end) by (vm_compute; split; reflexivity).
    rewrite Hrun in Hc. destruct Hc as [-> ->]. repeat split.
  - assert (Hc : match kpi_cards (F := spec_float) 1
                         (sample_filtered (mkTime 11 0 0 0) (mkTime 10 0 0 0)) with
                 | Ok _ => True
                 | Raise _ => False
                 end) by (vm_compute; exact I).
    rewrite Hrun in Hc. destruct Hc.
Qed.

(** The laws of [sums_monotone] in exact arithmetic. *)
Lemma exact_fle_spec (a b : option Q) :
  fle a b <-> exists x y, a = Some x /\ b = Some y /\ (x <= y)%Q.
Proof.
  unfold fle. destruct a as [x|], b as [y|]; simpl.
  - rewrite Qle_bool_iff. split; [by exists x, y|].
    by intros (x' & y' & [= <-] & [= <-] & Hle).
  - split; [done | by intros (? & ? & _ & ? & _)].
  - split; [done | by intros (? & ? & ? & _)].
  - split; [done | by intros (? & ? & ? & _)].
Qed.


Lemma exact_fle_trans (a b c : option Q) : fle a b -> fle b c -> fle a c.
Proof.
  rewrite !exact_fle_spec.
  intros (x & y & -> & -> & Hxy) (y' & z & [= <-] & -> & Hyz).
  exists x, z. split; [done|]. split; [done|]. by eapply Qle_trans.
Qed.




(** On the sample file the whole script returns, and the loaded frame,
    the object 0, is then what it was. *)
Lemma dataset_not_mutated_witness :
  exists report h',
    render (F := spec_float) (codec := Iso.iso) 0 None None sample_heap
    = Ok (report, h')
    /\ h' !! 0 = Some sample_df
    /\ df_filtered_ref report <> 0.
Proof.
  destruct (render (F := spec_float) (codec := Iso.iso) 0 None None sample_heap)
    as [[report h']|e] eqn:Hrun.
  - exists report, h'. split; [reflexivity|].
    destruct (dataset_not_mutated sample_heap 0 None None report h' Hrun)
      as (Hsame & _ & Hne & _).
    split; [|exact Hne]. rewrite Hsame. exact sample_heap_0.
  - assert (Hc : match render (F := spec_float) (codec := Iso.iso) 0 None None
                         sample_heap with
                 | Ok _ => True
                 | Raise _ => False
                 end) by (vm_compute; exact I).
    rewrite Hrun in Hc. destruct Hc.
Defined.



(** ** More of the script on the sample tables *)

Section MoreSampleFacts.
Context {F : Type} {float64 : Float64 F}.



End MoreSampleFacts.




(** A table with the one column [Power_Output_W]. *)
Lemma load_data_no_timestamp_witness :
  load_data (F := spec_float) (codec := Iso.iso) no_timestamp_file ∅
  = Raise (KeyError "Timestamp").
Proof.
  destruct (read_csv (F := spec_float) no_timestamp_file) as [fr|e] eqn:Hread.
  - apply (load_data_no_timestamp no_timestamp_file ∅ fr Hread).
    by_computation.
  - assert (Hc : match read_csv (F := spec_float) no_timestamp_file with
                 | Ok _ => True
                 | Raise _ => False
                 end) by (vm_compute; exact I).
    rewrite Hread in Hc. destruct Hc.
Defined.

(** A table whose second timestamp is the text [yesterday]. *)
Lemma load_data_unparsed_timestamp_witness :
  load_data (F := spec_float) (codec := Iso.iso) bad_timestamp_file ∅
  = Raise ValueError.
Proof.
  destruct (read_csv (F := spec_float) bad_timestamp_file) as [fr|e] eqn:Hread.
  - assert (Hc : match read_csv (F := spec_float) bad_timestamp_file with
                 | Ok fr => column_is is_text fr "Timestamp"
                            && negb (column_is (parses (codec := Iso.iso)) fr
                                       "Timestamp") = true
                 | Raise _ => False
                 end) by by_computation.
    rewrite Hread in Hc. apply andb_true_iff in Hc as [Htext Hno].
    apply negb_true_iff in Hno.
    exact (load_data_unparsed_timestamp bad_timestamp_file ∅ fr Hread Htext Hno).
  - assert (Hc : match read_csv (F := spec_float) bad_timestamp_file with
                 | Ok _ => True
                 | Raise _ => False
                 end) by (vm_compute; exact I).
    rewrite Hread in Hc. destruct Hc.
Defined.

(** The header of the sample file alone. *)
Lemma dashboard_no_data_line_witness :
  dashboard (F := spec_float) (codec := Iso.iso) (Some header_only_file)
    None None ∅
  = Raise ValueError.
Proof.
  destruct (read_csv (F := spec_float) header_only_file) as [fr|e] eqn:Hread.
  - apply (dashboard_no_data_line header_only_file ∅ fr None None Hread).
    + by_computation.
    + reflexivity.
  - assert (Hc : match read_csv (F := spec_float) header_only_file with
                 | Ok _ => True
                 | Raise _ => False
                 end) by (vm_compute; exact I).
    rewrite Hread in Hc. destruct Hc.
Defined.




(** The windows 9:00-10:30 and 10:00-11:00 share 10:00-10:30. *)
Lemma time_filter_twice_witness :
  exists v h1 w h2 v' h1' w' h2',
    time_filter (F := spec_float) 0 (mkTime 9 0 0 0) (mkTime 10 30 0 0)
      sample_heap = Ok (v, h1)
    /\ time_filter v (mkTime 10 0 0 0) (mkTime 11 0 0 0) h1 = Ok (w, h2)
    /\ h2 !! w
       = Some (window_view sample_df
                 (time_later (mkTime 9 0 0 0) (mkTime 10 0 0 0))
                 (time_earlier (mkTime 10 30 0 0) (mkTime 11 0 0 0)))
    /\ time_filter (F := spec_float) 0 (mkTime 10 0 0 0) (mkTime 11 0 0 0)
         sample_heap = Ok (v', h1')
    /\ time_filter v' (mkTime 9 0 0 0) (mkTime 10 30 0 0) h1' = Ok (w', h2')
    /\ h2' !! w' = h2 !! w.
Proof.
  apply (time_filter_twice (F := spec_float) sample_heap 0 sample_df).
  - exact sample_heap_0.
  - by_computation.
  - by_computation.
Defined.

(** The window from 10:00 to 10:00 on the sample. *)
Lemma time_filter_instant_witness :
  exists v h' view,
    time_filter (F := spec_float) 0 (mkTime 10 0 0 0) (mkTime 10 0 0 0)
      sample_heap = Ok (v, h')
    /\ h' !! v = Some view
    /\ rows view
       = List.filter (fun ir => at_time (mkTime 10 0 0 0) ir.2)
           (rows sample_df).
Proof.
  apply (time_filter_instant (F := spec_float) sample_heap 0 sample_df).
  - exact sample_heap_0.
  - by_computation.
  - by_computation.
Defined.

(** The cards of the sample dataset, before and after line 55. *)
Lemma kpi_cards_after_efficiency_witness :
  exists k h',
    kpi_cards (F := spec_float) 0 sample_heap = Ok (k, sample_heap)
    /\ efficiency_calculation (F := spec_float) 0 sample_heap = Ok (tt, h')
    /\ kpi_cards 0 h' = Ok (k, h').
Proof.
  apply (kpi_cards_after_efficiency (F := spec_float) sample_heap 0 sample_df).
  - exact sample_heap_0.
  - by_computation.
  - by_computation.
  - by_computation.
  - by_computation.
  - by_computation.
Defined.

Lemma exact_fle_total (a b : option Q) :
  is_nan a = false -> is_nan b = false -> fle a b \/ fle b a.
Proof.
  rewrite !exact_fle_spec. destruct a as [x|], b as [y|]; try done.
  intros _ _. destruct (Qlt_le_dec x y) as [Hlt|Hle].
  - left. exists x, y. split; [done|]. split; [done|]. by apply Qlt_le_weak.
  - right. by exists y, x.
Qed.

(** In exact arithmetic, on the sample dataset: the largest power. *)
Lemma max_power_is_maximum_witness :
  exists k,
    kpi_cards (F := option Q) 0 sample_heap = Ok (k, sample_heap)
    /\ forall readings,
         readings = dropna (numbers (F := option Q) sample_df
                              "Power_Output_W") ->
         (readings = [] -> MaxPower k = fnan)
         /\ (readings <> [] ->
             MaxPower k ∈ readings
             /\ Forall (fun x => fle x (MaxPower k)) readings).
Proof.
  apply (max_power_is_maximum (F := option Q) exact_fle_trans exact_fle_total
           sample_heap 0 sample_df).
  - exact sample_heap_0.
  - by_computation.
  - by_computation.
  - by_computation.
  - by_computation.
Defined.

